(** * NeuroKit2, [ppg_analyze]: the PPG analysis dispatcher

    A shallow embedding of [src/neurokit2/ppg/ppg_analyze.py] and the
    properties of its routing logic.

    The Python function receives a reference to a [dict] of epochs or
    to a [pandas.DataFrame], a sampling rate and a method name, and hands
    the data to one of two collaborators, [ppg_eventrelated] and
    [ppg_intervalrelated], which live in sibling modules.  The embedding
    keeps

    - the object store (references to Python objects), so that what the
      dispatcher does to its argument can be stated;
    - the exceptions, including the [UnboundLocalError] that Python
      raises when a local name is read before any assignment reached it;
    - a trace of the calls made to the two collaborators. *)

From Stdlib Require Import List String Ascii ZArith QArith Bool Lia Arith Sorted.
Import ListNotations.

Local Open Scope string_scope.
Local Open Scope list_scope.

(** ** Strings *)

Module Str.

(** [str.lower()] on one character.  Strings are sequences of bytes
    here.  The method names that the dispatcher recognises are ASCII and
    hold no letter k, so the only characters whose lower case can occur
    in a recognised name are the ASCII capitals; any other byte is left
    as it is. *)
Definition lower_ascii (c : ascii) : ascii :=
  let n := nat_of_ascii c in
  if andb (65 <=? n)%nat (n <=? 90)%nat then ascii_of_nat (n + 32) else c.

Fixpoint lower (s : string) : string :=
  match s with
  | EmptyString => EmptyString
  | String c rest => String (lower_ascii c) (lower rest)
  end.

(** [needle in hay] for two Python strings: substring test. *)
Fixpoint contains (needle hay : string) : bool :=
  if String.prefix needle hay then true
  else match hay with
       | EmptyString => false
       | String _ rest => contains needle rest
       end.

(** [x in [s1, s2, ...]] for a Python list of strings. *)
Definition mem (x : string) (l : list string) : bool :=
  existsb (String.eqb x) l.

End Str.

(** ** Python values seen by the dispatcher *)

(** A column of a data frame.  Two kinds of values are kept, those that
    occur as epoch labels: strings (object dtype, the labels that
    [epochs_create] makes up) and integers (int64 dtype).  Column names
    are strings. *)
Inductive column : Type :=
| StrColumn (values : list string)
| IntColumn (values : list Z).

(** A [pandas.DataFrame]: the length of its index and its columns in
    order, each with its name. *)
Record DataFrame : Type := mkDataFrame {
  nrows : N;
  columns : list (string * column)
}.

(** [df.columns.values] *)
Definition columns_values (df : DataFrame) : list string :=
  map fst (columns df).

(** [name in df.columns] *)
Definition column_in (name : string) (df : DataFrame) : bool :=
  Str.mem name (columns_values df).

(** [len(df)] *)
Definition len (df : DataFrame) : Z := Z.of_N (nrows df).

(** A [dict] of epochs in insertion order, which is its iteration
    order. *)
Definition pydict : Type := list (string * DataFrame).

Definition keys (d : pydict) : list string := map fst d.

(** A well-formed [dict] has no key twice. *)
Definition wf_dict (d : pydict) : Prop := NoDup (keys d).

(** The object behind the argument [data]: what the two [isinstance]
    tests of the dispatcher can tell apart. *)
Inductive pyobj : Type :=
| PyDict (d : pydict)
| PyDataFrame (df : DataFrame)
| PyOther.

(** [isinstance(o, dict)] *)
Definition isinstance_dict (o : pyobj) : bool :=
  match o with PyDict _ => true | _ => false end.

(** Exceptions: those the dispatcher can raise itself, and
    [ExtractorError] for whatever a collaborator raises. *)
Inductive exn : Type :=
| ValueError (msg : string)
| UnboundLocalError (name : string)
| KeyError (key : string)
| IndexError
| ZeroDivisionError
| ExtractorError (msg : string).

Inductive outcome (A : Type) : Type :=
| Return (a : A)
| Raise (e : exn).
Arguments Return {A} a.
Arguments Raise {A} e.

(** Python floats, as far as the dispatcher needs them: the quotient of
    two integers, or what numpy gives for a division by zero. *)
Inductive pyfloat : Type :=
| Finite (q : Q)
| PosInf
| NegInf
| NaN.

(** [x >= 10] *)
Definition ge10 (x : pyfloat) : bool :=
  match x with
  | Finite q => Qle_bool 10 q
  | PosInf => true
  | NegInf => false
  | NaN => false
  end.

(** The quotient of two integers, exact.  The float64 that Python
    computes is this number rounded to nearest.  The two are on the same
    side of 10 when the divisor is below 2^50 in size ([quotient_gap]
    below proves the gap this rests on); beyond that size they can
    differ, and the routing theorems assume the bound. *)
Definition quotient (a b : Z) : Q := (inject_Z a / inject_Z b)%Q.

(** [a / b] for two Python integers. *)
Definition py_truediv (a b : Z) : outcome pyfloat :=
  if (b =? 0)%Z then Raise ZeroDivisionError else Return (Finite (quotient a b)).

(** [a / b] for a numpy [int64] and a Python integer: a division by zero
    warns and gives an infinity or a NaN instead of raising. *)
Definition np_truediv (a b : Z) : pyfloat :=
  if (b =? 0)%Z then
    (if (0 <? a)%Z then PosInf else if (a <? 0)%Z then NegInf else NaN)
  else Finite (quotient a b).

(** ** [Series.value_counts] and [Series.__getitem__] *)

Section ValueCounts.

Context {A : Type} (eqb : A -> A -> bool).

(** Number of rows holding [x]. *)
Fixpoint count (x : A) (vs : list A) : nat :=
  match vs with
  | [] => 0
  | v :: rest => (if eqb x v then 1 else 0) + count x rest
  end.

(** One more occurrence of [x] in a table of counts kept in order of
    first appearance. *)
Fixpoint bump (x : A) (acc : list (A * nat)) : list (A * nat) :=
  match acc with
  | [] => [(x, 1%nat)]
  | (y, n) :: rest =>
      if eqb x y then (y, S n) :: rest else (y, n) :: bump x rest
  end.

Definition tally (vs : list A) : list (A * nat) :=
  fold_left (fun acc x => bump x acc) vs [].

(** Insertion into a list sorted by decreasing count; among equal
    counts the entry inserted goes first. *)
Fixpoint insert_desc (p : A * nat) (l : list (A * nat)) : list (A * nat) :=
  match l with
  | [] => [p]
  | q :: rest =>
      if (snd q <=? snd p)%nat then p :: l else q :: insert_desc p rest
  end.

Definition sort_desc (l : list (A * nat)) : list (A * nat) :=
  fold_right insert_desc [] l.

(** [Series.value_counts()]: one entry per distinct value, the most
    frequent first.  (The order among values of equal count differs
    between pandas versions; no result below depends on it.) *)
Definition value_counts (vs : list A) : list (A * nat) :=
  sort_desc (tally vs).

(** Lookup of a label in the index of the counts. *)
Fixpoint get_loc (x : A) (l : list (A * nat)) : option nat :=
  match l with
  | [] => None
  | (y, n) :: rest => if eqb x y then Some n else get_loc x rest
  end.

(** The count recorded for [x], none when [x] is absent. *)
Definition tallied (acc : list (A * nat)) (x : A) : nat :=
  match get_loc x acc with
  | Some n => n
  | None => 0
  end.

(** The order of the counts: [p] comes before [q]. *)
Definition before (p q : A * nat) : Prop := (snd q <= snd p)%nat.

End ValueCounts.

(** [series.value_counts()[0]].  The index of the counts holds the
    distinct values of the column.  With an integer key,
    [Series.__getitem__] looks the key up as a label when the index
    holds integers.  On an index of strings pandas 1 and 2 fall back to
    the position ([positional] is [true]); pandas 3 has no fallback and
    looks the key up as a label there too, where no string equals 0
    ([positional] is [false]).  The source does not say which pandas it
    runs on.  The result is a numpy [int64]. *)
Definition value_counts_getitem_0 (positional : bool) (c : column)
  : outcome Z :=
  match c with
  | StrColumn vs =>
      if positional then
        match value_counts String.eqb vs with
        | (_, n) :: _ => Return (Z.of_nat n)
        | [] => Raise IndexError
        end
      else Raise (KeyError "0")
  | IntColumn vs =>
      match get_loc Z.eqb 0%Z (value_counts Z.eqb vs) with
      | Some n => Return (Z.of_nat n)
      | None => Raise (KeyError "0")
      end
  end.

(** [df[name]] for a frame whose column names are distinct. *)
Fixpoint assoc_column (name : string) (cols : list (string * column))
  : option column :=
  match cols with
  | [] => None
  | (n, c) :: rest => if String.eqb name n then Some c else assoc_column name rest
  end.

Definition getitem_column (df : DataFrame) (name : string) : outcome column :=
  match assoc_column name (columns df) with
  | Some c => Return c
  | None => Raise (KeyError name)
  end.

(** [d[i]] for a dict. *)
Fixpoint dict_get (d : pydict) (i : string) : option DataFrame :=
  match d with
  | [] => None
  | (k, df) :: rest => if String.eqb i k then Some df else dict_get rest i
  end.

(** ** The world: object store and call trace *)

Definition ref : Type := nat.

(** Every reference denotes an object. *)
Definition heap : Type := ref -> pyobj.

Inductive call : Type :=
| CallEventRelated (data : ref)
| CallIntervalRelated (data : ref) (sampling_rate : Z).

Record world : Type := mkWorld {
  objects : heap;
  trace : list call
}.

(** Computations that read and write the world and may raise. *)
Definition M (A : Type) : Type := world -> world * outcome A.

Definition ret {A} (a : A) : M A := fun w => (w, Return a).

Definition raise {A} (e : exn) : M A := fun w => (w, Raise e).

Definition bind {A B} (m : M A) (k : A -> M B) : M B :=
  fun w =>
    match m w with
    | (w', Return a) => k a w'
    | (w', Raise e) => (w', Raise e)
    end.

Declare Scope py_scope.
Delimit Scope py_scope with py.
Notation "x <- m ;; k" := (bind m (fun x => k))
  (at level 61, m at next level, right associativity) : py_scope.

Definition lift {A} (o : outcome A) : M A := fun w => (w, o).

(** The object a reference points to. *)
Definition deref (r : ref) : M pyobj := fun w => (w, Return (objects w r)).

(** Reading a local name: a name no assignment has reached is unbound. *)
Definition local {A} (name : string) (v : option A) : M A :=
  match v with
  | Some a => ret a
  | None => raise (UnboundLocalError name)
  end.

(** [for i in keys: s = body(i, s)] *)
Fixpoint for_each {S} (l : list string) (body : string -> S -> M S) (s : S)
  : M S :=
  match l with
  | [] => ret s
  | i :: rest => bind (body i s) (for_each rest body)
  end.

(** [d[i]] as a step of the program. *)
Definition dict_getitem (d : pydict) (i : string) : M DataFrame :=
  match dict_get d i with
  | Some df => ret df
  | None => raise (KeyError i)
  end.

(** ** The dispatcher *)

Local Open Scope py_scope.

Section Dispatcher.

(** The pandas the function runs on: whether [Series.__getitem__] falls
    back to positions (see [value_counts_getitem_0]). *)
Variable pandas_positional : bool.

(** The table of features a collaborator returns is opaque here. *)
Variable Features : Type.

(** [ppg_eventrelated(data)] and
    [ppg_intervalrelated(data, sampling_rate=sampling_rate)], defined in
    sibling modules: any functions of the store that return or raise,
    and leave the store as they please. *)
Variable ppg_eventrelated : ref -> heap -> heap * outcome Features.
Variable ppg_intervalrelated : ref -> Z -> heap -> heap * outcome Features.

Definition call_ppg_eventrelated (data : ref) : M Features :=
  fun w =>
    let (h, r) := ppg_eventrelated data (objects w) in
    (mkWorld h (trace w ++ [CallEventRelated data]), r).

Definition call_ppg_intervalrelated (data : ref) (sampling_rate : Z)
  : M Features :=
  fun w =>
    let (h, r) := ppg_intervalrelated data sampling_rate (objects w) in
    (mkWorld h (trace w ++ [CallIntervalRelated data sampling_rate]), r).

(** Line 83: [[i for i in colnames if "Label" in i]]. *)
Definition label_columns (colnames : list string) : list string :=
  filter (fun i => Str.contains "Label" i) colnames.

(** Lines 77-81: the local [colnames] after the sanity-check block. *)
Definition event_colnames (obj : pyobj) : M (option (list string)) :=
  match obj with
  | PyDict d =>
      for_each (keys d)
        (fun i _ => df <- dict_getitem d i ;; ret (Some (columns_values df)))
        None
  | PyDataFrame df => ret (Some (columns_values df))
  | PyOther => ret None
  end.

(** Lines 99-100: the local [duration] after the loop over a dict. *)
Definition auto_dict_duration (d : pydict) (sampling_rate : Z)
  : M (option pyfloat) :=
  for_each (keys d)
    (fun i _ =>
       df <- dict_getitem d i ;;
       x <- lift (py_truediv (len df) sampling_rate) ;;
       ret (Some x))
    None.

(** Lines 107-111: the local [duration] for a single table. *)
Definition auto_frame_duration (df : DataFrame) (sampling_rate : Z)
  : M pyfloat :=
  if column_in "Label" df then
    c <- lift (getitem_column df "Label") ;;
    epoch_len <- lift (value_counts_getitem_0 pandas_positional c) ;;
    ret (np_truediv epoch_len sampling_rate)
  else
    lift (py_truediv (len df) sampling_rate).

(** Lines 101-104 and 112-115: [if duration >= 10: ... else: ...]. *)
Definition route (data : ref) (sampling_rate : Z) (duration : pyfloat)
  : M Features :=
  if ge10 duration then call_ppg_intervalrelated data sampling_rate
  else call_ppg_eventrelated data.

(** The three groups of method names. *)
Definition event_related_methods : list string :=
  ["event-related"; "event"; "epoch"].

Definition interval_related_methods : list string :=
  ["interval-related"; "interval"; "resting-state"].

Definition auto_methods : list string := ["auto"].

(** The message of the [ValueError] of lines 84-87 (two adjacent string
    literals, which Python concatenates). *)
Definition wrong_input : string :=
  "NeuroKit error: ppg_analyze(): Wrong input or method,"
  ++ "we couldn't extract epochs features.".

(** The function.  The object behind [data] is looked at once: its class
    cannot change, so the [isinstance] tests of lines 98 and 106 see the
    same kind of object, and the function reads nothing from it once a
    collaborator has run.  The local [features] is bound in the branches
    that assign it and read by the [return] of line 117. *)
Definition ppg_analyze (data : ref) (sampling_rate : Z) (method : string)
  : M Features :=
  let method := Str.lower method in
  features <-
    (if Str.mem method event_related_methods then
       obj <- deref data ;;
       colnames <- event_colnames obj ;;
       colnames <- local "colnames" colnames ;;
       if (List.length (label_columns colnames) =? 0)%nat
       then raise (ValueError wrong_input)
       else
         features <- call_ppg_eventrelated data ;;
         ret (Some features)
     else if Str.mem method interval_related_methods then
       features <- call_ppg_intervalrelated data sampling_rate ;;
       ret (Some features)
     else if Str.mem method auto_methods then
       obj <- deref data ;;
       features <-
         (match obj with
          | PyDict d =>
              duration <- auto_dict_duration d sampling_rate ;;
              duration <- local "duration" duration ;;
              features <- route data sampling_rate duration ;;
              ret (Some features)
          | _ => ret None
          end) ;;
       match obj with
       | PyDataFrame df =>
           duration <- auto_frame_duration df sampling_rate ;;
           features <- route data sampling_rate duration ;;
           ret (Some features)
       | _ => ret features
       end
     else ret None) ;;
  local "features" features.

End Dispatcher.

Arguments call_ppg_eventrelated {Features} ppg_eventrelated data w.
Arguments call_ppg_intervalrelated {Features} ppg_intervalrelated data sampling_rate w.
Arguments route {Features} ppg_eventrelated ppg_intervalrelated data sampling_rate duration w.
Arguments ppg_analyze pandas_positional {Features} ppg_eventrelated ppg_intervalrelated data sampling_rate method w.

(** ** Vocabulary of the specification *)

(** Some column name of [colnames] contains the epoch-label marker. *)
Definition has_label_marker (colnames : list string) : Prop :=
  exists c, In c colnames /\ Str.contains "Label" c = true.

(** The last member of a dict in iteration order. *)
Fixpoint last_member (d : pydict) : option (string * DataFrame) :=
  match d with
  | [] => None
  | p :: rest =>
      match rest with
      | [] => Some p
      | _ :: _ => last_member rest
      end
  end.

(** All the column names of the input: those of the table, or those of
    every member of the dict. *)
Definition all_columns (o : pyobj) : list string :=
  match o with
  | PyDict d => flat_map (fun p => columns_values (snd p)) d
  | PyDataFrame df => columns_values df
  | PyOther => []
  end.

(** The table whose column names the sanity check of the event-related
    branch ends up with. *)
Definition checked_frame (o : pyobj) : option DataFrame :=
  match o with
  | PyDict d => option_map snd (last_member d)
  | PyDataFrame df => Some df
  | PyOther => None
  end.

Definition wf_obj (o : pyobj) : Prop :=
  match o with
  | PyDict d => wf_dict d
  | _ => True
  end.

(** The most frequent value of a column of labels occurs [n] times. *)
Definition most_frequent_count {A} (eqb : A -> A -> bool) (vs : list A)
  (n : nat) : Prop :=
  (exists v, In v vs /\ count eqb v vs = n) /\
  (forall v, (count eqb v vs <= n)%nat).




(** A computation that leaves the world as it found it and whose
    outcome does not depend on the world. *)
Definition pure {A} (m : M A) : Prop :=
  exists r, forall w, m w = (w, r).

(** Collaborators that return at once and touch nothing: run with them,
    the dispatcher shows its decision alone. *)
Definition idle_eventrelated : ref -> heap -> heap * outcome unit :=
  fun _ h => (h, Return tt).

Definition idle_intervalrelated : ref -> Z -> heap -> heap * outcome unit :=
  fun _ _ h => (h, Return tt).

(** The calls the dispatcher decides to make on an object, and the
    exception of its own if there is one. *)
Definition decision (positional : bool) (o : pyobj) (data : ref)
  (sampling_rate : Z) (method : string) : list call * outcome unit :=
  let (w, r) :=
    ppg_analyze positional idle_eventrelated idle_intervalrelated data sampling_rate
      method (mkWorld (fun _ => o) [])
  in (trace w, r).

(** ** Sample inputs *)

Module Samples.

Definition signal (n : nat) : column := IntColumn (repeat 70%Z n).

(** A continuous recording of [n] samples, as [ppg_process] returns it:
    no [Label] column. *)
Definition recording (n : nat) : DataFrame :=
  mkDataFrame (N.of_nat n)
    [("PPG_Raw", signal n); ("PPG_Clean", signal n); ("PPG_Rate", signal n)].

(** One epoch of [n] samples, as [epochs_create] returns it. *)
Definition epoch (label : string) (n : nat) : DataFrame :=
  mkDataFrame (N.of_nat n)
    [("PPG_Raw", signal n); ("PPG_Rate", signal n);
     ("Label", StrColumn (repeat label n))].

(** Twenty seconds at 100 Hz. *)
Definition resting : pyobj := PyDataFrame (recording 2000).

(** Three epochs of two seconds at 100 Hz. *)
Definition epochs : pyobj :=
  PyDict [("1", epoch "1" 200); ("2", epoch "2" 200); ("3", epoch "3" 200)].

(** A dict whose first member only has a [Label] column. *)
Definition label_first : pyobj :=
  PyDict [("1", epoch "1" 200); ("2", recording 200)].

(** A dict whose last member only has a [Label] column, and is long. *)
Definition label_last : pyobj :=
  PyDict [("1", recording 200); ("2", epoch "2" 1500)].


(** Epochs labelled with integers from 1. *)
Definition labels_from_1 : DataFrame :=
  mkDataFrame 3 [("PPG_Rate", signal 3); ("Label", IntColumn [1; 1; 2]%Z)].

(** A table of epochs with no row. *)
Definition no_row : DataFrame :=
  mkDataFrame 0 [("PPG_Rate", signal 0); ("Label", StrColumn [])].



(** The world in which every reference leads to [o], before any call. *)
Definition world_of (o : pyobj) : world := mkWorld (fun _ => o) [].

End Samples.

(** * Properties of the dispatcher *)

(** ** Method names *)

Lemma mem_In (x : string) (l : list string) : Str.mem x l = true <-> In x l.
Proof.
  unfold Str.mem. rewrite existsb_exists. split.
  - intros [y [Hy He]]. apply String.eqb_eq in He. now subst.
  - intros H. exists x. split; [assumption | apply String.eqb_refl].
Qed.

Lemma mem_not_In (x : string) (l : list string) :
  ~ In x l -> Str.mem x l = false.
Proof.
  intros H. destruct (Str.mem x l) eqn:E; [|reflexivity].
  apply mem_In in E. contradiction.
Qed.

(** The three groups are disjoint, so the order of the tests of lines 75,
    92 and 96 does not matter for a recognised name. *)
Lemma interval_not_event (m : string) :
  In m interval_related_methods -> Str.mem m event_related_methods = false.
Proof.
  intros [<- | [<- | [<- | []]]]; reflexivity.
Qed.

Lemma auto_not_event_nor_interval (m : string) :
  In m auto_methods ->
  Str.mem m event_related_methods = false /\
  Str.mem m interval_related_methods = false.
Proof.
  intros [<- | []]. split; reflexivity.
Qed.

(** Lower-casing is idempotent: the dispatcher sees the same name
    whatever the capitals of the caller. *)
Lemma lower_ascii_idem (c : ascii) :
  Str.lower_ascii (Str.lower_ascii c) = Str.lower_ascii c.
Proof.
  destruct c as [[] [] [] [] [] [] [] []]; reflexivity.
Qed.

Lemma lower_idem (s : string) : Str.lower (Str.lower s) = Str.lower s.
Proof.
  induction s as [|c s IH]; simpl; [reflexivity|].
  now rewrite lower_ascii_idem, IH.
Qed.

(** ** [value_counts]: the first entry is the most frequent value *)

Section ValueCountsFacts.

Context {A : Type} (eqb : A -> A -> bool).
Hypothesis eqb_spec : forall x y, eqb x y = true <-> x = y.

Lemma eqb_same (x : A) : eqb x x = true.
Proof. now apply eqb_spec. Qed.

Lemma count_In (x : A) (vs : list A) : In x vs <-> (1 <= count eqb x vs)%nat.
Proof.
  induction vs as [|v vs IH]; simpl.
  - split; [contradiction | lia].
  - destruct (eqb x v) eqn:E.
    + apply eqb_spec in E. subst. split; [lia | now left].
    + rewrite IH. split; [intros [-> | H]|intros H; right; lia].
      * now rewrite eqb_same in E.
      * lia.
Qed.

Lemma tallied_bump (x y : A) (acc : list (A * nat)) :
  tallied eqb (bump eqb x acc) y
  = if eqb y x then S (tallied eqb acc y) else tallied eqb acc y.
Proof.
  unfold tallied. induction acc as [|[z n] acc IH]; simpl.
  - now destruct (eqb y x).
  - destruct (eqb x z) eqn:Exz; simpl.
    + apply eqb_spec in Exz. subst z.
      destruct (eqb y x) eqn:Eyx; reflexivity.
    + destruct (eqb y z) eqn:Eyz; [|exact IH].
      destruct (eqb y x) eqn:Eyx; [|reflexivity].
      apply eqb_spec in Eyz, Eyx. subst. now rewrite eqb_same in Exz.
Qed.

Lemma tallied_fold (y : A) (vs : list A) (acc : list (A * nat)) :
  tallied eqb (fold_left (fun acc x => bump eqb x acc) vs acc) y
  = (tallied eqb acc y + count eqb y vs)%nat.
Proof.
  revert acc. induction vs as [|v vs IH]; intros acc; simpl; [lia|].
  rewrite IH, tallied_bump. destruct (eqb y v); lia.
Qed.

Lemma tallied_tally (y : A) (vs : list A) :
  tallied eqb (tally eqb vs) y = count eqb y vs.
Proof.
  unfold tally. now rewrite tallied_fold.
Qed.

Lemma In_keys_bump (k x : A) (acc : list (A * nat)) :
  In k (map fst (bump eqb x acc)) -> k = x \/ In k (map fst acc).
Proof.
  induction acc as [|[z n] acc IH]; simpl.
  - intros [<- | []]. now left.
  - destruct (eqb x z); simpl; intros [<- | H]; auto.
    destruct (IH H); auto.
Qed.

Lemma NoDup_bump (x : A) (acc : list (A * nat)) :
  NoDup (map fst acc) -> NoDup (map fst (bump eqb x acc)).
Proof.
  induction acc as [|[z n] acc IH]; simpl; intros H.
  - constructor; [intros [] | constructor].
  - inversion H as [|? ? Hnotin Hnodup]; subst.
    destruct (eqb x z) eqn:E; simpl.
    + now constructor.
    + constructor; [|now apply IH].
      intros Hin. apply In_keys_bump in Hin as [-> | Hin]; [|contradiction].
      now rewrite eqb_same in E.
Qed.

Lemma positive_bump (x : A) (acc : list (A * nat)) :
  Forall (fun p => (1 <= snd p)%nat) acc ->
  Forall (fun p => (1 <= snd p)%nat) (bump eqb x acc).
Proof.
  induction acc as [|[z n] acc IH]; simpl; intros H.
  - repeat constructor.
  - inversion H; subst. destruct (eqb x z); constructor; simpl in *; auto; lia.
Qed.

Lemma tally_invariant (vs : list A) (acc : list (A * nat)) :
  NoDup (map fst acc) /\ Forall (fun p => (1 <= snd p)%nat) acc ->
  let r := fold_left (fun acc x => bump eqb x acc) vs acc in
  NoDup (map fst r) /\ Forall (fun p => (1 <= snd p)%nat) r.
Proof.
  revert acc. induction vs as [|v vs IH]; intros acc [H1 H2]; simpl; [auto|].
  apply IH. split; [now apply NoDup_bump | now apply positive_bump].
Qed.

Lemma In_get_loc (y : A) (n : nat) (l : list (A * nat)) :
  NoDup (map fst l) -> In (y, n) l -> get_loc eqb y l = Some n.
Proof.
  induction l as [|[z m] l IH]; simpl; intros Hnd Hin; [contradiction|].
  inversion Hnd as [|? ? Hnotin Hnodup]; subst.
  destruct Hin as [E | Hin].
  - injection E as -> ->. now rewrite eqb_same.
  - destruct (eqb y z) eqn:E; [|now apply IH].
    apply eqb_spec in E. subst z. exfalso. apply Hnotin.
    exact (in_map fst l (y, n) Hin).
Qed.

Lemma get_loc_In (y : A) (n : nat) (l : list (A * nat)) :
  get_loc eqb y l = Some n -> In (y, n) l.
Proof.
  induction l as [|[z m] l IH]; simpl; intros H; [discriminate|].
  destruct (eqb y z) eqn:E.
  - apply eqb_spec in E. injection H as ->. subst. now left.
  - right. now apply IH.
Qed.

(** The entries of the tally are the values that occur, each with the
    number of its rows. *)
Lemma In_tally (y : A) (n : nat) (vs : list A) :
  In (y, n) (tally eqb vs) <-> In y vs /\ n = count eqb y vs.
Proof.
  destruct (tally_invariant vs []) as [Hnd Hpos];
    [split; constructor|]. fold (tally eqb vs) in Hnd, Hpos.
  pose proof (tallied_tally y vs) as Ht. unfold tallied in Ht.
  split.
  - intros Hin. rewrite (In_get_loc y n _ Hnd Hin) in Ht.
    rewrite Forall_forall in Hpos. specialize (Hpos _ Hin). simpl in Hpos.
    split; [apply count_In; lia | exact Ht].
  - intros [Hin ->]. apply count_In in Hin.
    destruct (get_loc eqb y (tally eqb vs)) as [m|] eqn:E; [|lia].
    subst m. now apply get_loc_In.
Qed.

Lemma In_insert_desc (p q : A * nat) (l : list (A * nat)) :
  In q (insert_desc p l) <-> q = p \/ In q l.
Proof.
  induction l as [|r l IH]; simpl.
  - intuition.
  - destruct (snd r <=? snd p)%nat; simpl; [intuition|].
    rewrite IH. intuition.
Qed.

Lemma In_sort_desc (q : A * nat) (l : list (A * nat)) :
  In q (sort_desc l) <-> In q l.
Proof.
  induction l as [|p l IH]; simpl; [reflexivity|].
  rewrite In_insert_desc, IH. intuition.
Qed.

Lemma insert_desc_sorted (p : A * nat) (l : list (A * nat)) :
  StronglySorted before l -> StronglySorted before (insert_desc p l).
Proof.
  induction l as [|r l IH]; simpl; intros H.
  - repeat constructor.
  - inversion H as [|? ? Hl Hr]; subst.
    destruct (snd r <=? snd p)%nat eqn:E.
    + apply Nat.leb_le in E. constructor; [exact H|].
      constructor; [exact E|].
      eapply Forall_impl; [|exact Hr]. unfold before. intros; lia.
    + apply Nat.leb_gt in E. constructor; [now apply IH|].
      apply Forall_forall. intros q Hq.
      apply In_insert_desc in Hq as [-> | Hq].
      * unfold before. lia.
      * rewrite Forall_forall in Hr. now apply Hr.
Qed.

Lemma sort_desc_sorted (l : list (A * nat)) :
  StronglySorted before (sort_desc l).
Proof.
  induction l as [|p l IH]; simpl; [constructor | now apply insert_desc_sorted].
Qed.

(** The first entry of the counts carries the count of the most
    frequent value. *)
Lemma value_counts_head (vs : list A) (v : A) (n : nat)
  (rest : list (A * nat)) :
  value_counts eqb vs = (v, n) :: rest -> most_frequent_count eqb vs n.
Proof.
  unfold value_counts. intros H.
  pose proof (sort_desc_sorted (tally eqb vs)) as Hs. rewrite H in Hs.
  inversion Hs as [|? ? _ Hall]; subst. rewrite Forall_forall in Hall.
  assert (Hhead : In (v, n) (tally eqb vs))
    by (apply In_sort_desc; rewrite H; now left).
  apply In_tally in Hhead as [Hin ->].
  split; [now exists v|].
  intros x. destruct (count eqb x vs) as [|c] eqn:Ec; [lia|].
  assert (Hx : In (x, S c) (sort_desc (tally eqb vs))).
  { apply In_sort_desc, In_tally. split; [apply count_In; lia | now symmetry]. }
  rewrite H in Hx. destruct Hx as [E | Hx].
  - injection E as -> ->. lia.
  - apply Hall in Hx. unfold before in Hx. simpl in Hx. lia.
Qed.

(** A column with a row has a first entry in its counts. *)
Lemma value_counts_nonempty (vs : list A) :
  vs <> [] -> value_counts eqb vs <> [].
Proof.
  destruct vs as [|v vs]; [congruence|]. intros _ H.
  assert (Hin : In (v, count eqb v (v :: vs)) (value_counts eqb (v :: vs))).
  { apply In_sort_desc, In_tally. split; [now left | reflexivity]. }
  now rewrite H in Hin.
Qed.

End ValueCountsFacts.

(** ** The substring test *)

Lemma prefix_app (s1 s2 : string) :
  String.prefix s1 s2 = true <-> exists post, s2 = (s1 ++ post)%string.
Proof.
  revert s2. induction s1 as [|c s1 IH]; intros s2.
  - split; [intros _; now exists s2 | intros _; now destruct s2].
  - destruct s2 as [|c2 s2]; simpl.
    + split; [discriminate | intros [post H]; discriminate].
    + destruct (Ascii.ascii_dec c c2) as [<- | Hne].
      * rewrite IH. split; intros [post H]; exists post.
        -- now rewrite H.
        -- now injection H.
      * split; [discriminate | intros [post H]]. congruence.
Qed.

Lemma contains_unfold (needle hay : string) :
  Str.contains needle hay =
  if String.prefix needle hay then true
  else match hay with
       | EmptyString => false
       | String _ rest => Str.contains needle rest
       end.
Proof. now destruct hay. Qed.

(** [Str.contains needle hay] holds exactly when [needle] occurs in
    [hay]. *)
Lemma contains_spec (needle hay : string) :
  Str.contains needle hay = true <->
  exists pre post, hay = (pre ++ needle ++ post)%string.
Proof.
  split.
  - induction hay as [|c hay IH]; rewrite contains_unfold;
      destruct (String.prefix needle _) eqn:E; intros H;
      try (apply prefix_app in E as [post E]; now exists "", post).
    + discriminate.
    + destruct (IH H) as [pre [post ->]]. now exists (String c pre), post.
  - intros [pre [post ->]]. induction pre as [|c pre IH];
      rewrite contains_unfold.
    + assert (E : String.prefix needle (needle ++ post)%string = true)
        by (apply prefix_app; now exists post).
      change ("" ++ needle ++ post)%string with (needle ++ post)%string.
      now rewrite E.
    + destruct (String.prefix needle _); [reflexivity | exact IH].
Qed.

(** ** Loops over a dict *)

(** A loop whose body rebinds one local to a value that depends on the
    key alone, and leaves the world alone, ends with the value of the
    last key; with no key at all the local keeps what it had. *)
Lemma for_each_rebinds {S : Type} (l : list string)
  (body : string -> S -> M S) (g : string -> S) (w : world) :
  (forall i s, In i l -> body i s w = (w, Return (g i))) ->
  forall s, for_each l body s w = (w, Return (fold_left (fun _ i => g i) l s)).
Proof.
  induction l as [|i l IH]; intros Hbody s; [reflexivity|].
  simpl. unfold bind. rewrite (Hbody i s (or_introl eq_refl)).
  apply IH. intros j s' Hj. apply Hbody. now right.
Qed.

(** A loop whose body raises at the first key stops there. *)
Lemma for_each_raises {S : Type} (i : string) (l : list string)
  (body : string -> S -> M S) (e : exn) (s : S) (w : world) :
  body i s w = (w, Raise e) ->
  for_each (i :: l) body s w = (w, Raise e).
Proof.
  intros H. simpl. unfold bind. now rewrite H.
Qed.

Lemma last_member_In (d : pydict) (p : string * DataFrame) :
  last_member d = Some p -> In p d.
Proof.
  induction d as [|q [|r rest] IH]; simpl; intros H.
  - discriminate.
  - injection H as ->. now left.
  - right. now apply IH.
Qed.

Lemma last_member_app (d : pydict) (p : string * DataFrame) :
  last_member (d ++ [p]) = Some p.
Proof.
  induction d as [|q [|r rest] IH]; simpl in *; auto.
Qed.

Lemma fold_left_last_key {S : Type} (g : string -> S) (d : pydict)
  (k : string) (df : DataFrame) (s : S) :
  last_member d = Some (k, df) ->
  fold_left (fun _ i => g i) (keys d) s = g k.
Proof.
  revert s. induction d as [|q [|r rest] IH]; intros s H.
  - discriminate.
  - simpl in H. injection H as ->. reflexivity.
  - exact (IH (g (fst q)) H).
Qed.

(** In a dict, the key of the last member leads to the last member. *)
Lemma dict_get_last (d : pydict) (k : string) (df : DataFrame) :
  wf_dict d -> last_member d = Some (k, df) -> dict_get d k = Some df.
Proof.
  unfold wf_dict. induction d as [|[k0 df0] [|r rest] IH]; intros Hwf H.
  - discriminate.
  - simpl in H. injection H as -> ->. simpl. now rewrite String.eqb_refl.
  - change (last_member (r :: rest) = Some (k, df)) in H.
    change (keys ((k0, df0) :: r :: rest)) with (k0 :: keys (r :: rest)) in Hwf.
    inversion Hwf as [|? ? Hnotin Hnodup]; subst.
    change (dict_get ((k0, df0) :: r :: rest) k)
      with (if String.eqb k k0 then Some df0 else dict_get (r :: rest) k).
    destruct (String.eqb k k0) eqn:E.
    + apply String.eqb_eq in E. subst k0. exfalso. apply Hnotin.
      apply last_member_In in H.
      exact (in_map fst (r :: rest) (k, df) H).
    + now apply IH.
Qed.

(** Every key of a dict leads to some member. *)
Lemma dict_get_key (d : pydict) (i : string) :
  In i (keys d) -> exists df, dict_get d i = Some df.
Proof.
  induction d as [|[k df] d IH]; simpl; intros H; [contradiction|].
  destruct (String.eqb i k) eqn:E; [eauto|].
  destruct H as [-> | H]; [|now apply IH].
  now rewrite String.eqb_refl in E.
Qed.

(** Lines 78-79 on a dict with a last member: [colnames] ends as the
    column names of that member. *)
Lemma event_colnames_dict (d : pydict) (k : string) (df : DataFrame)
  (w : world) :
  wf_dict d -> last_member d = Some (k, df) ->
  event_colnames (PyDict d) w = (w, Return (Some (columns_values df))).
Proof.
  intros Hwf Hlast. unfold event_colnames.
  rewrite (for_each_rebinds (keys d) _
             (fun i => option_map columns_values (dict_get d i))).
  - rewrite (fold_left_last_key _ d k df None Hlast).
    now rewrite (dict_get_last d k df Hwf Hlast).
  - intros i s Hi. destruct (dict_get_key d i Hi) as [dfi Hdfi].
    unfold bind, dict_getitem. now rewrite Hdfi.
Qed.

(** Lines 99-100 on a dict with a last member and a sampling rate that
    is not zero: [duration] ends as the duration of that member. *)
Lemma auto_dict_duration_last (d : pydict) (k : string) (df : DataFrame)
  (sr : Z) (w : world) :
  wf_dict d -> last_member d = Some (k, df) -> sr <> 0%Z ->
  auto_dict_duration d sr w = (w, Return (Some (Finite (quotient (len df) sr)))).
Proof.
  intros Hwf Hlast Hsr. unfold auto_dict_duration.
  rewrite (for_each_rebinds (keys d) _
             (fun i => option_map (fun x => Finite (quotient (len x) sr))
                         (dict_get d i))).
  - rewrite (fold_left_last_key _ d k df None Hlast).
    now rewrite (dict_get_last d k df Hwf Hlast).
  - intros i s Hi. destruct (dict_get_key d i Hi) as [dfi Hdfi].
    unfold bind, dict_getitem, lift, py_truediv. rewrite Hdfi.
    apply Z.eqb_neq in Hsr. now rewrite Hsr.
Qed.

(** The test of line 83 against the vocabulary of the specification. *)
Lemma label_columns_empty (colnames : list string) :
  (List.length (label_columns colnames) =? 0)%nat = true <->
  ~ has_label_marker colnames.
Proof.
  unfold has_label_marker, label_columns. rewrite Nat.eqb_eq. split.
  - intros H [c [Hin Hc]].
    assert (Hf : In c (filter (fun i => Str.contains "Label" i) colnames))
      by (apply filter_In; auto).
    destruct (filter (fun i => Str.contains "Label" i) colnames);
      [contradiction | discriminate].
  - intros H.
    destruct (filter (fun i => Str.contains "Label" i) colnames) as [|c l] eqn:E;
      [reflexivity|].
    exfalso. apply H. exists c.
    apply (filter_In (fun i => Str.contains "Label" i)). rewrite E. now left.
Qed.

Lemma label_columns_nonempty (colnames : list string) :
  (List.length (label_columns colnames) =? 0)%nat = false <->
  has_label_marker colnames.
Proof.
  split.
  - intros H. unfold has_label_marker, label_columns in *.
    destruct (filter (fun i => Str.contains "Label" i) colnames) as [|c l] eqn:E;
      [discriminate|].
    exists c. apply (filter_In (fun i => Str.contains "Label" i)).
    rewrite E. now left.
  - intros H.
    destruct (List.length (label_columns colnames) =? 0)%nat eqn:E;
      [|reflexivity].
    apply label_columns_empty in E. contradiction.
Qed.

(** ** The dispatcher's own steps only read *)

Lemma pure_ret {A : Type} (a : A) : pure (ret a).
Proof. now exists (Return a). Qed.

Lemma pure_raise {A : Type} (e : exn) : pure (@raise A e).
Proof. now exists (Raise e). Qed.

Lemma pure_lift {A : Type} (o : outcome A) : pure (lift o).
Proof. now exists o. Qed.

Lemma pure_local {A : Type} (name : string) (v : option A) :
  pure (local name v).
Proof. destruct v; [apply pure_ret | apply pure_raise]. Qed.

Lemma pure_bind {A B : Type} (m : M A) (k : A -> M B) :
  pure m -> (forall a, pure (k a)) -> pure (bind m k).
Proof.
  intros [[a | e] Hm] Hk.
  - destruct (Hk a) as [r Hr]. exists r. intros w.
    unfold bind. now rewrite Hm, Hr.
  - exists (Raise e). intros w. unfold bind. now rewrite Hm.
Qed.

Lemma pure_dict_getitem (d : pydict) (i : string) : pure (dict_getitem d i).
Proof.
  unfold dict_getitem. destruct (dict_get d i); [apply pure_ret | apply pure_raise].
Qed.

Lemma pure_for_each {S : Type} (l : list string) (body : string -> S -> M S) :
  (forall i s, pure (body i s)) -> forall s, pure (for_each l body s).
Proof.
  intros Hbody. induction l as [|i l IH]; intros s; simpl.
  - apply pure_ret.
  - apply pure_bind; [apply Hbody | exact IH].
Qed.

Create HintDb reads.
#[local] Hint Resolve pure_ret pure_raise pure_lift pure_local
  pure_dict_getitem : reads.
#[local] Hint Extern 2 (pure (bind _ _)) => apply pure_bind; [|intro] : reads.
#[local] Hint Extern 2 (pure (for_each _ _ _)) =>
  apply pure_for_each; intros : reads.

Lemma pure_event_colnames (o : pyobj) : pure (event_colnames o).
Proof. destruct o; simpl; auto with reads. Qed.

Lemma pure_auto_dict_duration (d : pydict) (sr : Z) :
  pure (auto_dict_duration d sr).
Proof. unfold auto_dict_duration. auto 6 with reads. Qed.

Lemma pure_auto_frame_duration (pos : bool) (df : DataFrame) (sr : Z) :
  pure (auto_frame_duration pos df sr).
Proof.
  unfold auto_frame_duration. destruct (column_in "Label" df); auto 6 with reads.
Qed.

(** ** Blanking the cells that are not labels *)









(** ** The threshold, and the label column *)

(** With a positive sampling rate, [duration >= 10] says that there are
    at least ten times the sampling rate of rows. *)
Lemma ge10_quotient (n sr : Z) :
  (0 < sr)%Z ->
  ge10 (Finite (quotient n sr)) = (10 * sr <=? n)%Z.
Proof.
  intros Hsr. unfold ge10, quotient.
  assert (Hpos : (0 < inject_Z sr)%Q)
    by (change 0%Q with (inject_Z 0); now rewrite <- Zlt_Qlt).
  destruct (10 * sr <=? n)%Z eqn:E.
  - apply Z.leb_le in E. apply Qle_bool_iff.
    apply Qle_shift_div_l; [exact Hpos|].
    change 10%Q with (inject_Z 10). rewrite <- inject_Z_mult.
    now rewrite <- Zle_Qle.
  - apply Z.leb_gt in E.
    destruct (Qle_bool 10 (inject_Z n / inject_Z sr)) eqn:F; [|reflexivity].
    apply Qle_bool_iff in F. exfalso.
    apply (Qlt_not_le (inject_Z n / inject_Z sr) 10); [|exact F].
    apply Qlt_shift_div_r; [exact Hpos|].
    change 10%Q with (inject_Z 10). rewrite <- inject_Z_mult.
    now rewrite <- Zlt_Qlt.
Qed.

(** Why the exact quotient may stand for the float.  Python computes
    the float64 nearest to the exact quotient.  The floats next to 10
    are 10 itself and 10 - 2^-49, with 10 - 2^-50 half way.  When the
    sampling rate is below 2^50 in size the exact quotient is never
    strictly between 10 - 2^-50 and 10: it is at least 10, and so is
    its float, or it is below 10 - 2^-50, and its float is at most
    10 - 2^-49.  So [>= 10] decides alike on both. *)
Lemma quotient_gap (n sr : Z) :
  sr <> 0%Z -> (Z.abs sr < 2 ^ 50)%Z -> (0 <= n)%Z ->
  (10 <= quotient n sr)%Q \/
  (quotient n sr < 10 - (1 # 2 ^ 50))%Q.
Proof.
  intros Hsr Hb Hn. unfold quotient.
  destruct sr as [|p|p]; [congruence| |].
  - destruct (Z_le_gt_dec (10 * Z.pos p) n) as [Hle | Hgt].
    + left. unfold Qle, Qdiv, Qmult, Qinv, inject_Z. simpl.
      rewrite !Z.mul_1_r. lia.
    + right. unfold Qlt, Qminus, Qplus, Qopp, Qdiv, Qmult, Qinv, inject_Z.
      simpl. simpl in Hb. lia.
  - right. unfold Qlt, Qminus, Qplus, Qopp, Qdiv, Qmult, Qinv, inject_Z.
    simpl. lia.
Qed.

Lemma assoc_column_in (name : string) (cols : list (string * column))
  (c : column) :
  assoc_column name cols = Some c -> Str.mem name (map fst cols) = true.
Proof.
  induction cols as [|[n c'] cols IH]; simpl; [discriminate|].
  destruct (String.eqb name n); [reflexivity | exact IH].
Qed.

(** Lines 108-109 on a table whose labels are strings, with the positional
    fallback of pandas 1 and 2: the duration is
    the number of rows of the most frequent label over the sampling
    rate. *)
Lemma auto_frame_duration_str (df : DataFrame) (vs : list string) (sr : Z)
  (w : world) :
  assoc_column "Label" (columns df) = Some (StrColumn vs) ->
  vs <> [] ->
  sr <> 0%Z ->
  exists n,
    most_frequent_count String.eqb vs n /\
    auto_frame_duration true df sr w
    = (w, Return (Finite (quotient (Z.of_nat n) sr))).
Proof.
  intros Hcol Hvs Hsr.
  pose proof (value_counts_nonempty String.eqb String.eqb_eq vs Hvs) as Hne.
  destruct (value_counts String.eqb vs) as [|[v n] rest] eqn:E; [congruence|].
  exists n. split.
  - exact (value_counts_head String.eqb String.eqb_eq vs v n rest E).
  - unfold auto_frame_duration, column_in, columns_values.
    rewrite (assoc_column_in _ _ _ Hcol).
    unfold bind, lift, getitem_column. rewrite Hcol.
    cbn [value_counts_getitem_0]. rewrite E.
    unfold ret, np_truediv. apply Z.eqb_neq in Hsr. now rewrite Hsr.
Qed.

(** The column names the sanity check ends up with are column names
    of the input. *)
Lemma checked_frame_columns (o : pyobj) (df : DataFrame) :
  checked_frame o = Some df ->
  has_label_marker (columns_values df) -> has_label_marker (all_columns o).
Proof.
  destruct o as [d | df' |]; simpl; intros H.
  - destruct (last_member d) as [[k df']|] eqn:E; [|discriminate].
    injection H as ->. intros [c [Hin Hc]]. exists c. split; [|exact Hc].
    apply in_flat_map. exists (k, df). split; [|exact Hin].
    now apply last_member_In.
  - now injection H as ->.
  - discriminate.
Qed.

Section Branches.

Variable pandas_positional : bool.
Variable Features : Type.
Variable ppg_eventrelated : ref -> heap -> heap * outcome Features.
Variable ppg_intervalrelated : ref -> Z -> heap -> heap * outcome Features.

Local Abbreviation analyze :=
  (ppg_analyze pandas_positional ppg_eventrelated ppg_intervalrelated).
Local Abbreviation frame_duration := (auto_frame_duration pandas_positional).
Local Abbreviation to_event := (call_ppg_eventrelated ppg_eventrelated).
Local Abbreviation to_interval := (call_ppg_intervalrelated ppg_intervalrelated).
Local Abbreviation route_by := (route ppg_eventrelated ppg_intervalrelated).

(** [features = m; return features] is [m]. *)
Lemma bound_then_returned {A : Type} (m : M A) (name : string) (w : world) :
  (features <- (x <- m ;; ret (Some x)) ;; local name features) w = m w.
Proof.
  unfold bind, ret, local. destruct (m w) as [w' [a | e]]; reflexivity.
Qed.

(** The four branches of the dispatcher, one equation each. *)
Lemma analyze_event (data : ref) (sr : Z) (method : string) (w : world) :
  In (Str.lower method) event_related_methods ->
  analyze data sr method w =
  (obj <- deref data ;;
   colnames <- event_colnames obj ;;
   colnames <- local "colnames" colnames ;;
   if (List.length (label_columns colnames) =? 0)%nat
   then raise (ValueError wrong_input)
   else to_event data) w.
Proof.
  intros H. unfold ppg_analyze. cbv zeta.
  apply mem_In in H. rewrite H.
  cbv [bind deref].
  destruct (event_colnames (objects w data) w) as [w1 [[c|] | e]];
    cbv [local ret raise]; try reflexivity.
  destruct (List.length (label_columns c) =? 0)%nat; [reflexivity|].
  destruct (to_event data w1) as [w2 [f | e]]; reflexivity.
Qed.

Lemma analyze_interval (data : ref) (sr : Z) (method : string) (w : world) :
  In (Str.lower method) interval_related_methods ->
  analyze data sr method w = to_interval data sr w.
Proof.
  intros H. unfold ppg_analyze. cbv zeta.
  rewrite (interval_not_event _ H).
  apply mem_In in H. rewrite H. apply bound_then_returned.
Qed.

Lemma analyze_auto (data : ref) (sr : Z) (method : string) (w : world) :
  In (Str.lower method) auto_methods ->
  analyze data sr method w =
  match objects w data with
  | PyDict d =>
      (duration <- auto_dict_duration d sr ;;
       duration <- local "duration" duration ;;
       route_by data sr duration) w
  | PyDataFrame df =>
      (duration <- auto_frame_duration pandas_positional df sr ;;
       route_by data sr duration) w
  | PyOther => (w, Raise (UnboundLocalError "features"))
  end.
Proof.
  intros H. unfold ppg_analyze. cbv zeta.
  destruct (auto_not_event_nor_interval _ H) as [-> ->].
  apply mem_In in H. rewrite H.
  cbv [bind ret local raise deref].
  destruct (objects w data) as [d | df |]; [| |reflexivity].
  - destruct (auto_dict_duration d sr w) as [w1 [[x|] | e]]; try reflexivity.
    destruct (route_by data sr x w1) as [w2 [f | e]]; reflexivity.
  - destruct (auto_frame_duration pandas_positional df sr w) as [w1 [x | e]]; try reflexivity.
    destruct (route_by data sr x w1) as [w2 [f | e]]; reflexivity.
Qed.

Lemma analyze_unrecognized (data : ref) (sr : Z) (method : string)
  (w : world) :
  Str.mem (Str.lower method) event_related_methods = false ->
  Str.mem (Str.lower method) interval_related_methods = false ->
  Str.mem (Str.lower method) auto_methods = false ->
  analyze data sr method w = (w, Raise (UnboundLocalError "features")).
Proof.
  intros He Hi Ha. unfold ppg_analyze. cbv zeta.
  rewrite He, Hi, Ha. reflexivity.
Qed.

(** Lines 77-83 on an object whose checked table is [df]. *)
Lemma event_colnames_checked (o : pyobj) (df : DataFrame) (w : world) :
  wf_obj o -> checked_frame o = Some df ->
  event_colnames o w = (w, Return (Some (columns_values df))).
Proof.
  destruct o as [d | df' |]; simpl; intros Hwf H.
  - destruct (last_member d) as [[k df']|] eqn:E; [|discriminate].
    injection H as ->. now apply (event_colnames_dict d k df).
  - now injection H as ->.
  - discriminate.
Qed.

Lemma analyze_event_checked (data : ref) (sr : Z) (method : string)
  (w : world) (df : DataFrame) :
  wf_obj (objects w data) -> checked_frame (objects w data) = Some df ->
  In (Str.lower method) event_related_methods ->
  analyze data sr method w =
  if (List.length (label_columns (columns_values df)) =? 0)%nat
  then (w, Raise (ValueError wrong_input))
  else to_event data w.
Proof.
  intros Hwf Hdf Hm. rewrite (analyze_event data sr method w Hm).
  unfold bind at 1. unfold deref. unfold bind at 1.
  rewrite (event_colnames_checked _ df w Hwf Hdf).
  unfold bind, local, ret, raise.
  now destruct (List.length (label_columns (columns_values df)) =? 0)%nat.
Qed.

End Branches.

(** Whatever the collaborators are, the dispatcher does what its
    decision says: it raises with the world untouched, or it is one call
    of a collaborator on the world untouched. *)
Lemma analyze_decision (pos : bool) (Features : Type)
  (ev : ref -> heap -> heap * outcome Features)
  (iv : ref -> Z -> heap -> heap * outcome Features)
  (data : ref) (sr : Z) (method : string) (w : world) :
  (exists e, decision pos (objects w data) data sr method = ([], Raise e) /\
             ppg_analyze pos ev iv data sr method w = (w, Raise e)) \/
  (decision pos (objects w data) data sr method
     = ([CallEventRelated data], Return tt) /\
   ppg_analyze pos ev iv data sr method w = call_ppg_eventrelated ev data w) \/
  (decision pos (objects w data) data sr method
     = ([CallIntervalRelated data sr], Return tt) /\
   ppg_analyze pos ev iv data sr method w
     = call_ppg_intervalrelated iv data sr w).
Proof.
  unfold decision.
  destruct (Str.mem (Str.lower method) event_related_methods) eqn:He;
    [|destruct (Str.mem (Str.lower method) interval_related_methods) eqn:Hi;
      [|destruct (Str.mem (Str.lower method) auto_methods) eqn:Ha]].
  - apply mem_In in He. rewrite !analyze_event by exact He.
    cbv [bind deref]. cbn [objects].
    destruct (pure_event_colnames (objects w data)) as [r Hr]. rewrite !Hr.
    destruct r as [[c|] | e]; cbv [local ret raise]; [|left; eauto|left; eauto].
    destruct (List.length (label_columns c) =? 0)%nat;
      [left; eauto | right; left; split; reflexivity].
  - apply mem_In in Hi. rewrite !analyze_interval by exact Hi.
    right. right. split; reflexivity.
  - apply mem_In in Ha. rewrite !analyze_auto by exact Ha. cbn [objects].
    destruct (objects w data) as [d | df |]; [| |left; eauto].
    + destruct (pure_auto_dict_duration d sr) as [r Hr].
      unfold bind. rewrite !Hr.
      destruct r as [[x|] | e]; cbv [local ret raise route];
        [|left; eauto|left; eauto].
      destruct (ge10 x); [right; right | right; left]; split; reflexivity.
    + destruct (pure_auto_frame_duration pos df sr) as [r Hr].
      unfold bind. rewrite !Hr.
      destruct r as [x | e]; cbv [route]; [|left; eauto].
      destruct (ge10 x); [right; right | right; left]; split; reflexivity.
  - left. exists (UnboundLocalError "features").
    rewrite !analyze_unrecognized by assumption. split; reflexivity.
Qed.


Section Properties.

Variable pandas_positional : bool.
Variable Features : Type.
Variable ppg_eventrelated : ref -> heap -> heap * outcome Features.
Variable ppg_intervalrelated : ref -> Z -> heap -> heap * outcome Features.

Local Abbreviation analyze :=
  (ppg_analyze pandas_positional ppg_eventrelated ppg_intervalrelated).
Local Abbreviation frame_duration := (auto_frame_duration pandas_positional).
Local Abbreviation to_event := (call_ppg_eventrelated ppg_eventrelated).
Local Abbreviation to_interval := (call_ppg_intervalrelated ppg_intervalrelated).

(** C3. For every data and sampling rate, with a method of the
    interval-related group (whatever its capitals) the dispatcher is
    exactly the call [ppg_intervalrelated(data, sampling_rate)]: same
    result or exception, same effect, no check before and nothing done
    to the result after. *)
Theorem interval_related_delegates (data : ref) (sr : Z) (method : string)
  (w : world) :
  In (Str.lower method) interval_related_methods ->
  analyze data sr method w = to_interval data sr w.
Proof.
  intros H. now rewrite analyze_interval by exact H.
Qed.

(** C7. With a method outside the three groups no collaborator is
    called, nothing is computed, and reading the local [features] at the
    [return] finds it unbound. *)
Theorem unrecognized_method_unbound (data : ref) (sr : Z) (method : string)
  (w : world) :
  ~ In (Str.lower method) event_related_methods ->
  ~ In (Str.lower method) interval_related_methods ->
  ~ In (Str.lower method) auto_methods ->
  analyze data sr method w = (w, Raise (UnboundLocalError "features")).
Proof.
  intros He Hi Ha. apply analyze_unrecognized; now apply mem_not_In.
Qed.

(** C1. A single table without a [Label] column, method auto, sampling
    rate not zero and below 2^50 in size, fewer than 2^63 rows (no
    [len] is larger): the duration is the number of rows over the
    sampling rate; that quotient is at least 10 or below 10 - 2^-50, so
    its float is on the same side of 10; and the call is exactly the
    interval-related one when the duration is at least 10 and the
    event-related one otherwise. *)
Theorem auto_table_without_label (data : ref) (sr : Z) (method : string)
  (w : world) (df : DataFrame) :
  objects w data = PyDataFrame df ->
  column_in "Label" df = false ->
  sr <> 0%Z ->
  (Z.abs sr < 2 ^ 50)%Z ->
  (len df < 2 ^ 63)%Z ->
  Str.lower method = "auto" ->
  auto_frame_duration pandas_positional df sr w
  = (w, Return (Finite (inject_Z (len df) / inject_Z sr))) /\
  ((10 <= inject_Z (len df) / inject_Z sr)%Q \/
   (inject_Z (len df) / inject_Z sr < 10 - (1 # 2 ^ 50))%Q) /\
  analyze data sr method w =
    if Qle_bool 10 (inject_Z (len df) / inject_Z sr)
    then to_interval data sr w
    else to_event data w.
Proof.
  intros Hobj Hlabel Hsr Hb _ Hm.
  change (inject_Z (len df) / inject_Z sr)%Q with (quotient (len df) sr).
  assert (Hd : auto_frame_duration pandas_positional df sr w
               = (w, Return (Finite (quotient (len df) sr)))).
  { unfold auto_frame_duration. rewrite Hlabel.
    unfold lift, py_truediv. apply Z.eqb_neq in Hsr. now rewrite Hsr. }
  split; [exact Hd|]. split.
  { apply quotient_gap; [exact Hsr | exact Hb | unfold len; lia]. }
  rewrite analyze_auto by (rewrite Hm; now left).
  rewrite Hobj. unfold bind. rewrite Hd. unfold local, ret, route, ge10.
  now destruct (Qle_bool 10 (quotient (len df) sr)).
Qed.

(** C6. A dict of tables, method auto, sampling rate not zero and below
    2^50 in size, last member of fewer than 2^63 rows: the duration that
    decides is that of the last member in iteration order, whatever the
    other members are; that quotient is at least 10 or below
    10 - 2^-50, so its float is on the same side of 10. *)
Theorem auto_dict_last_member (data : ref) (sr : Z) (method : string)
  (w : world) (d : pydict) (k : string) (df : DataFrame) :
  objects w data = PyDict d ->
  wf_dict d ->
  last_member d = Some (k, df) ->
  sr <> 0%Z ->
  (Z.abs sr < 2 ^ 50)%Z ->
  (len df < 2 ^ 63)%Z ->
  Str.lower method = "auto" ->
  auto_dict_duration d sr w
    = (w, Return (Some (Finite (inject_Z (len df) / inject_Z sr)))) /\
  ((10 <= inject_Z (len df) / inject_Z sr)%Q \/
   (inject_Z (len df) / inject_Z sr < 10 - (1 # 2 ^ 50))%Q) /\
  analyze data sr method w =
    if Qle_bool 10 (inject_Z (len df) / inject_Z sr)
    then to_interval data sr w
    else to_event data w.
Proof.
  intros Hobj Hwf Hlast Hsr Hb _ Hm.
  change (inject_Z (len df) / inject_Z sr)%Q with (quotient (len df) sr).
  pose proof (auto_dict_duration_last d k df sr w Hwf Hlast Hsr) as Hd.
  split; [exact Hd|]. split.
  { apply quotient_gap; [exact Hsr | exact Hb | unfold len; lia]. }
  rewrite analyze_auto by (rewrite Hm; now left).
  rewrite Hobj. unfold bind. rewrite Hd. unfold local, ret, route, ge10.
  now destruct (Qle_bool 10 (quotient (len df) sr)).
Qed.

(** C9. A dict, event-related method: the sanity check looks at the
    column names of the last member only.  If one of them contains the
    marker the call is the event-related one; if none does the call
    fails with the [ValueError]; the other members have no say. *)
Theorem event_check_last_member (data : ref) (sr : Z) (method : string)
  (w : world) (d : pydict) (k : string) (df : DataFrame) :
  objects w data = PyDict d ->
  wf_dict d ->
  last_member d = Some (k, df) ->
  In (Str.lower method) event_related_methods ->
  (has_label_marker (columns_values df) ->
   analyze data sr method w = to_event data w) /\
  (~ has_label_marker (columns_values df) ->
   analyze data sr method w = (w, Raise (ValueError wrong_input))).
Proof.
  intros Hobj Hwf Hlast Hm.
  assert (Hc : checked_frame (objects w data) = Some df)
    by (rewrite Hobj; simpl; now rewrite Hlast).
  assert (Hw : wf_obj (objects w data)) by (now rewrite Hobj).
  rewrite (analyze_event_checked _ _ _ _ data sr method w df Hw Hc Hm).
  split; intros H.
  - apply label_columns_nonempty in H. now rewrite H.
  - apply label_columns_empty in H. now rewrite H.
Qed.

(** C4, amended. A single table one of whose column names contains the
    marker, or a dict whose last member is such a table, with a method
    of the event-related group: the dispatcher is exactly the call
    [ppg_eventrelated(data)], whatever the sampling rate. *)
Theorem event_related_delegates (data : ref) (method : string) (w : world)
  (df : DataFrame) :
  wf_obj (objects w data) ->
  checked_frame (objects w data) = Some df ->
  has_label_marker (columns_values df) ->
  In (Str.lower method) event_related_methods ->
  forall sr, analyze data sr method w = to_event data w.
Proof.
  intros Hw Hc Hmark Hm sr.
  rewrite (analyze_event_checked _ _ _ _ data sr method w df Hw Hc Hm).
  apply label_columns_nonempty in Hmark. now rewrite Hmark.
Qed.

(** X2. A single table, or a dict with at least one member, in which no
    column name contains the marker, with a method of the event-related
    group: the call fails with the [ValueError], the world as it was and
    no collaborator called. *)
Lemma event_related_without_marker (data : ref) (sr : Z) (method : string)
  (w : world) (df : DataFrame) :
  wf_obj (objects w data) ->
  checked_frame (objects w data) = Some df ->
  ~ has_label_marker (all_columns (objects w data)) ->
  In (Str.lower method) event_related_methods ->
  analyze data sr method w = (w, Raise (ValueError wrong_input)).
Proof.
  intros Hw Hc Hno Hm.
  rewrite (analyze_event_checked _ _ _ _ data sr method w df Hw Hc Hm).
  assert (H : ~ has_label_marker (columns_values df))
    by (intros H; apply Hno; now apply (checked_frame_columns _ df)).
  apply label_columns_empty in H. now rewrite H.
Qed.

(** The message of the [ValueError] names the function. *)
Lemma wrong_input_names_function :
  Str.contains "ppg_analyze()" wrong_input = true.
Proof. reflexivity. Qed.

(** C10. An empty dict, or an object that is neither a dict nor a
    table: the event-related branch reads [colnames] unbound, and the
    auto branch ends on an unbound local too, [duration] for the empty
    dict and [features] otherwise.  No collaborator is called. *)
Theorem unbound_locals (data : ref) (sr : Z) (method : string) (w : world) :
  objects w data = PyDict [] \/ objects w data = PyOther ->
  (In (Str.lower method) event_related_methods ->
   analyze data sr method w = (w, Raise (UnboundLocalError "colnames"))) /\
  (In (Str.lower method) auto_methods ->
   analyze data sr method w =
   (w, Raise (UnboundLocalError
                (if isinstance_dict (objects w data)
                 then "duration" else "features")))).
Proof.
  intros Hobj. split; intros Hm.
  - rewrite analyze_event by exact Hm.
    unfold bind at 1. unfold deref.
    destruct Hobj as [-> | ->]; reflexivity.
  - rewrite analyze_auto by exact Hm.
    destruct Hobj as [-> | ->]; reflexivity.
Qed.

(** C2, the input on which it fails: an empty dict has no column name
    at all, yet the event-related branch does not reach the
    [ValueError]; it stops on the unbound [colnames]. *)
Theorem event_related_empty_dict (data : ref) (sr : Z) :
  let w := mkWorld (fun _ => PyDict []) [] in
  ~ has_label_marker (all_columns (objects w data)) /\
  analyze data sr "event-related" w = (w, Raise (UnboundLocalError "colnames")) /\
  analyze data sr "event-related" w <> (w, Raise (ValueError wrong_input)).
Proof.
  cbv zeta. split; [|split].
  - intros [c [[] _]].
  - reflexivity.
  - discriminate.
Qed.


(** X12. On a pandas with the positional fallback (1 and 2), a single
    table whose [Label] column holds strings, with at least one row,
    method auto, sampling rate not zero and below 2^49 in size: the
    duration is the number of rows of the most frequent label over the
    sampling rate, and it decides the route.  (Below 2^49 the float
    quotient and the exact one are on the same side of 10, see
    [quotient_gap].) *)
Lemma auto_table_string_labels (data : ref) (sr : Z) (method : string)
  (w : world) (df : DataFrame) (vs : list string) :
  pandas_positional = true ->
  objects w data = PyDataFrame df ->
  assoc_column "Label" (columns df) = Some (StrColumn vs) ->
  vs <> [] ->
  sr <> 0%Z ->
  (Z.abs sr < 2 ^ 49)%Z ->
  Str.lower method = "auto" ->
  exists n,
    most_frequent_count String.eqb vs n /\
    auto_frame_duration pandas_positional df sr w
    = (w, Return (Finite (quotient (Z.of_nat n) sr))) /\
    analyze data sr method w =
      if Qle_bool 10 (quotient (Z.of_nat n) sr)
      then to_interval data sr w
      else to_event data w.
Proof.
  intros Hpos Hobj Hcol Hvs Hsr _ Hm. rewrite Hpos.
  destruct (auto_frame_duration_str df vs sr w Hcol Hvs Hsr) as [n [Hn Hd]].
  exists n. split; [exact Hn|]. split; [exact Hd|].
  rewrite analyze_auto by (rewrite Hm; now left).
  rewrite Hobj. unfold bind. rewrite Hd. unfold route, ge10.
  now destruct (Qle_bool 10 (quotient (Z.of_nat n) sr)).
Qed.

(** X9. With a sampling rate of zero the quotient of line 111 raises:
    the auto branch on a table without a [Label] column ends in
    [ZeroDivisionError], no collaborator called. *)
Lemma auto_table_zero_rate (data : ref) (method : string) (w : world)
  (df : DataFrame) :
  objects w data = PyDataFrame df ->
  column_in "Label" df = false ->
  Str.lower method = "auto" ->
  analyze data 0 method w = (w, Raise ZeroDivisionError).
Proof.
  intros Hobj Hlabel Hm.
  rewrite analyze_auto by (rewrite Hm; now left).
  rewrite Hobj. unfold bind, auto_frame_duration. now rewrite Hlabel.
Qed.

(** X10. With a sampling rate of zero the quotient of line 100 raises
    at the first member: the auto branch on a dict that is not empty
    ends in [ZeroDivisionError], no collaborator called. *)
Lemma auto_dict_zero_rate (data : ref) (method : string) (w : world)
  (k : string) (df : DataFrame) (rest : pydict) :
  objects w data = PyDict ((k, df) :: rest) ->
  Str.lower method = "auto" ->
  analyze data 0 method w = (w, Raise ZeroDivisionError).
Proof.
  intros Hobj Hm.
  rewrite analyze_auto by (rewrite Hm; now left).
  rewrite Hobj. unfold bind at 1. unfold auto_dict_duration.
  change (keys ((k, df) :: rest)) with (k :: keys rest).
  rewrite (for_each_raises k (keys rest) _ ZeroDivisionError None w);
    [reflexivity|].
  unfold bind, dict_getitem. simpl. now rewrite String.eqb_refl.
Qed.

(** C5, an input on which it fails: a table whose labels are integers,
    five rows of label 0 and ten rows of label 1, at 1 Hz.  The most
    frequent label has ten rows, which makes ten seconds and would go
    to the interval-related collaborator; [value_counts()[0]] is the
    count of label 0, the duration is five seconds, and the call goes to
    the event-related collaborator. *)
Theorem auto_table_integer_labels (data : ref) :
  let labels := [0; 0; 0; 0; 0; 1; 1; 1; 1; 1; 1; 1; 1; 1; 1]%Z in
  let df := mkDataFrame 15 [("Label", IntColumn labels)] in
  let w := mkWorld (fun _ => PyDataFrame df) [] in
  most_frequent_count Z.eqb labels 10 /\
  ge10 (Finite (quotient 10 1)) = true /\
  auto_frame_duration pandas_positional df 1 w = (w, Return (Finite (quotient 5 1))) /\
  analyze data 1 "auto" w = to_event data w.
Proof.
  cbv zeta. split; [split|split; [|split]].
  - exists 1%Z. split; [simpl; auto 10 | reflexivity].
  - intros v. simpl.
    destruct (Z.eqb_spec v 0), (Z.eqb_spec v 1); subst; simpl; lia.
  - reflexivity.
  - reflexivity.
  - rewrite analyze_auto by (now left). reflexivity.
Qed.

(** The same expression on integer labels without a label 0: the lookup
    of the key 0 fails. *)
Lemma auto_table_integer_labels_without_0 (data : ref) :
  let df := mkDataFrame 3 [("Label", IntColumn [1; 1; 2]%Z)] in
  let w := mkWorld (fun _ => PyDataFrame df) [] in
  analyze data 1000 "auto" w = (w, Raise (KeyError "0")).
Proof.
  cbv zeta. rewrite analyze_auto by (now left). reflexivity.
Qed.

(** The same expression on a table with a [Label] column and no row,
    with the positional fallback. *)
Lemma auto_table_no_row (data : ref) :
  let df := mkDataFrame 0 [("Label", StrColumn [])] in
  let w := mkWorld (fun _ => PyDataFrame df) [] in
  ppg_analyze true ppg_eventrelated ppg_intervalrelated data 1000 "auto" w
  = (w, Raise IndexError).
Proof.
  cbv zeta. rewrite analyze_auto by (now left). reflexivity.
Qed.

End Properties.

(** * The properties on the sample inputs *)

Ltac distinct_keys :=
  unfold wf_dict; simpl; repeat constructor; simpl; intuition discriminate.

(** Twenty seconds of recording at 100 Hz, method [Auto]. *)
Lemma auto_table_without_label_witness :
  objects (Samples.world_of Samples.resting) 0%nat
    = PyDataFrame (Samples.recording 2000) /\
  column_in "Label" (Samples.recording 2000) = false /\
  100%Z <> 0%Z /\
  (Z.abs 100 < 2 ^ 50)%Z /\
  (len (Samples.recording 2000) < 2 ^ 63)%Z /\
  Str.lower "Auto" = "auto" /\
  auto_frame_duration true (Samples.recording 2000) 100
    (Samples.world_of Samples.resting)
  = (Samples.world_of Samples.resting,
     Return (Finite (inject_Z (len (Samples.recording 2000))
                     / inject_Z 100))) /\
  ((10 <= inject_Z (len (Samples.recording 2000)) / inject_Z 100)%Q \/
   (inject_Z (len (Samples.recording 2000)) / inject_Z 100
    < 10 - (1 # 2 ^ 50))%Q) /\
  ppg_analyze true idle_eventrelated idle_intervalrelated 0%nat 100 "Auto"
    (Samples.world_of Samples.resting)
  = if Qle_bool 10 (inject_Z (len (Samples.recording 2000)) / inject_Z 100)
    then call_ppg_intervalrelated idle_intervalrelated 0%nat 100
           (Samples.world_of Samples.resting)
    else call_ppg_eventrelated idle_eventrelated 0%nat
           (Samples.world_of Samples.resting).
Proof.
  assert (H1 : objects (Samples.world_of Samples.resting) 0%nat
               = PyDataFrame (Samples.recording 2000)) by reflexivity.
  assert (H2 : column_in "Label" (Samples.recording 2000) = false)
    by reflexivity.
  assert (H3 : 100%Z <> 0%Z) by lia.
  assert (H4 : (Z.abs 100 < 2 ^ 50)%Z) by reflexivity.
  assert (H5 : (len (Samples.recording 2000) < 2 ^ 63)%Z) by reflexivity.
  assert (H6 : Str.lower "Auto" = "auto") by reflexivity.
  split; [exact H1|]. split; [exact H2|]. split; [exact H3|].
  split; [exact H4|]. split; [exact H5|]. split; [exact H6|].
  exact (auto_table_without_label true unit idle_eventrelated
           idle_intervalrelated 0%nat 100 "Auto"
           (Samples.world_of Samples.resting)
           (Samples.recording 2000) H1 H2 H3 H4 H5 H6).
Defined.

(** The interval-related method, in capitals, on a dict of epochs. *)
Lemma interval_related_delegates_witness :
  In (Str.lower "Resting-State") interval_related_methods /\
  ppg_analyze true idle_eventrelated idle_intervalrelated 0%nat 100 "Resting-State"
    (Samples.world_of Samples.epochs)
  = call_ppg_intervalrelated idle_intervalrelated 0%nat 100
      (Samples.world_of Samples.epochs).
Proof.
  assert (H : In (Str.lower "Resting-State") interval_related_methods)
    by (simpl; auto).
  split; [exact H|].
  exact (interval_related_delegates true unit idle_eventrelated idle_intervalrelated
           0%nat 100 "Resting-State" (Samples.world_of Samples.epochs) H).
Defined.

(** A method that is no method. *)
Lemma unrecognized_method_unbound_witness :
  ~ In (Str.lower "HRV") event_related_methods /\
  ~ In (Str.lower "HRV") interval_related_methods /\
  ~ In (Str.lower "HRV") auto_methods /\
  ppg_analyze true idle_eventrelated idle_intervalrelated 0%nat 100 "HRV"
    (Samples.world_of Samples.resting)
  = (Samples.world_of Samples.resting, Raise (UnboundLocalError "features")).
Proof.
  assert (H1 : ~ In (Str.lower "HRV") event_related_methods)
    by (simpl; intuition discriminate).
  assert (H2 : ~ In (Str.lower "HRV") interval_related_methods)
    by (simpl; intuition discriminate).
  assert (H3 : ~ In (Str.lower "HRV") auto_methods)
    by (simpl; intuition discriminate).
  split; [exact H1|]. split; [exact H2|]. split; [exact H3|].
  exact (unrecognized_method_unbound true unit idle_eventrelated
           idle_intervalrelated 0%nat 100 "HRV"
           (Samples.world_of Samples.resting) H1 H2 H3).
Defined.

(** A dict whose first member lasts two seconds and whose last member
    lasts fifteen. *)
Lemma auto_dict_last_member_witness :
  objects (Samples.world_of Samples.label_last) 0%nat
    = PyDict [("1", Samples.recording 200); ("2", Samples.epoch "2" 1500)] /\
  wf_dict [("1", Samples.recording 200); ("2", Samples.epoch "2" 1500)] /\
  last_member [("1", Samples.recording 200); ("2", Samples.epoch "2" 1500)]
    = Some ("2", Samples.epoch "2" 1500) /\
  100%Z <> 0%Z /\
  (Z.abs 100 < 2 ^ 50)%Z /\
  (len (Samples.epoch "2" 1500) < 2 ^ 63)%Z /\
  Str.lower "auto" = "auto" /\
  auto_dict_duration
    [("1", Samples.recording 200); ("2", Samples.epoch "2" 1500)] 100
    (Samples.world_of Samples.label_last)
  = (Samples.world_of Samples.label_last,
     Return (Some (Finite (inject_Z (len (Samples.epoch "2" 1500))
                           / inject_Z 100)))) /\
  ((10 <= inject_Z (len (Samples.epoch "2" 1500)) / inject_Z 100)%Q \/
   (inject_Z (len (Samples.epoch "2" 1500)) / inject_Z 100
    < 10 - (1 # 2 ^ 50))%Q) /\
  ppg_analyze true idle_eventrelated idle_intervalrelated 0%nat 100 "auto"
    (Samples.world_of Samples.label_last)
  = if Qle_bool 10 (inject_Z (len (Samples.epoch "2" 1500)) / inject_Z 100)
    then call_ppg_intervalrelated idle_intervalrelated 0%nat 100
           (Samples.world_of Samples.label_last)
    else call_ppg_eventrelated idle_eventrelated 0%nat
           (Samples.world_of Samples.label_last).
Proof.
  assert (H1 : objects (Samples.world_of Samples.label_last) 0%nat
               = PyDict [("1", Samples.recording 200);
                         ("2", Samples.epoch "2" 1500)]) by reflexivity.
  assert (H2 : wf_dict [("1", Samples.recording 200);
                        ("2", Samples.epoch "2" 1500)]) by distinct_keys.
  assert (H3 : last_member [("1", Samples.recording 200);
                            ("2", Samples.epoch "2" 1500)]
               = Some ("2", Samples.epoch "2" 1500)) by reflexivity.
  assert (H4 : 100%Z <> 0%Z) by lia.
  assert (H5 : (Z.abs 100 < 2 ^ 50)%Z) by reflexivity.
  assert (H6 : (len (Samples.epoch "2" 1500) < 2 ^ 63)%Z) by reflexivity.
  assert (H7 : Str.lower "auto" = "auto") by reflexivity.
  split; [exact H1|]. split; [exact H2|]. split; [exact H3|].
  split; [exact H4|]. split; [exact H5|]. split; [exact H6|].
  split; [exact H7|].
  exact (auto_dict_last_member true unit idle_eventrelated
           idle_intervalrelated 0%nat 100 "auto"
           (Samples.world_of Samples.label_last)
           _ "2" (Samples.epoch "2" 1500) H1 H2 H3 H4 H5 H6 H7).
Defined.

(** A dict whose first member only has the marker: the check fails. *)
Lemma event_check_last_member_witness :
  objects (Samples.world_of Samples.label_first) 0%nat
    = PyDict [("1", Samples.epoch "1" 200); ("2", Samples.recording 200)] /\
  wf_dict [("1", Samples.epoch "1" 200); ("2", Samples.recording 200)] /\
  last_member [("1", Samples.epoch "1" 200); ("2", Samples.recording 200)]
    = Some ("2", Samples.recording 200) /\
  In (Str.lower "event") event_related_methods /\
  ~ has_label_marker (columns_values (Samples.recording 200)) /\
  ppg_analyze true idle_eventrelated idle_intervalrelated 0%nat 100 "event"
    (Samples.world_of Samples.label_first)
  = (Samples.world_of Samples.label_first, Raise (ValueError wrong_input)).
Proof.
  assert (H1 : objects (Samples.world_of Samples.label_first) 0%nat
               = PyDict [("1", Samples.epoch "1" 200);
                         ("2", Samples.recording 200)]) by reflexivity.
  assert (H2 : wf_dict [("1", Samples.epoch "1" 200);
                        ("2", Samples.recording 200)]) by distinct_keys.
  assert (H3 : last_member [("1", Samples.epoch "1" 200);
                            ("2", Samples.recording 200)]
               = Some ("2", Samples.recording 200)) by reflexivity.
  assert (H4 : In (Str.lower "event") event_related_methods)
    by (simpl; auto).
  assert (H5 : ~ has_label_marker (columns_values (Samples.recording 200))).
  { intros [c [Hin Hc]]. simpl in Hin.
    destruct Hin as [<- | [<- | [<- | []]]]; discriminate. }
  split; [exact H1|]. split; [exact H2|]. split; [exact H3|].
  split; [exact H4|]. split; [exact H5|].
  exact (proj2 (event_check_last_member true unit idle_eventrelated
                  idle_intervalrelated 0%nat 100 "event"
                  (Samples.world_of Samples.label_first)
                  _ "2" (Samples.recording 200) H1 H2 H3 H4) H5).
Defined.

(** A dict whose last member has a [Label] column. *)
Lemma event_related_delegates_witness :
  wf_obj (objects (Samples.world_of Samples.label_last) 0%nat) /\
  checked_frame (objects (Samples.world_of Samples.label_last) 0%nat)
    = Some (Samples.epoch "2" 1500) /\
  has_label_marker (columns_values (Samples.epoch "2" 1500)) /\
  In (Str.lower "Epoch") event_related_methods /\
  forall sr,
    ppg_analyze true idle_eventrelated idle_intervalrelated 0%nat sr "Epoch"
      (Samples.world_of Samples.label_last)
    = call_ppg_eventrelated idle_eventrelated 0%nat
        (Samples.world_of Samples.label_last).
Proof.
  assert (H1 : wf_obj (objects (Samples.world_of Samples.label_last) 0%nat))
    by distinct_keys.
  assert (H2 : checked_frame
                 (objects (Samples.world_of Samples.label_last) 0%nat)
               = Some (Samples.epoch "2" 1500)) by reflexivity.
  assert (H3 : has_label_marker (columns_values (Samples.epoch "2" 1500)))
    by (exists "Label"; split; [simpl; auto | reflexivity]).
  assert (H4 : In (Str.lower "Epoch") event_related_methods)
    by (simpl; auto).
  split; [exact H1|]. split; [exact H2|]. split; [exact H3|].
  split; [exact H4|].
  exact (event_related_delegates true unit idle_eventrelated idle_intervalrelated
           0%nat "Epoch" (Samples.world_of Samples.label_last)
           (Samples.epoch "2" 1500) H1 H2 H3 H4).
Defined.

(** C4 as stated fails on a dict whose first member only has a [Label]
    column: a column name of the input contains the marker, the method is
    event-related, and the call is not the event-related collaborator's;
    it fails with the [ValueError]. *)
Lemma event_related_marker_not_last :
  has_label_marker (all_columns Samples.label_first) /\
  In (Str.lower "event-related") event_related_methods /\
  ppg_analyze true idle_eventrelated idle_intervalrelated 0%nat 100 "event-related"
    (Samples.world_of Samples.label_first)
  = (Samples.world_of Samples.label_first, Raise (ValueError wrong_input)) /\
  ppg_analyze true idle_eventrelated idle_intervalrelated 0%nat 100 "event-related"
    (Samples.world_of Samples.label_first)
  <> call_ppg_eventrelated idle_eventrelated 0%nat
       (Samples.world_of Samples.label_first).
Proof.
  split; [|split; [|split]].
  - exists "Label". split; [simpl; auto 10 | reflexivity].
  - simpl. auto.
  - reflexivity.
  - intros H. vm_compute in H. discriminate.
Qed.


(** Something that is neither a dict nor a table. *)
Lemma unbound_locals_witness :
  (objects (Samples.world_of PyOther) 0%nat = PyDict [] \/
   objects (Samples.world_of PyOther) 0%nat = PyOther) /\
  (In (Str.lower "event-related") event_related_methods ->
   ppg_analyze true idle_eventrelated idle_intervalrelated 0%nat 100 "event-related"
     (Samples.world_of PyOther)
   = (Samples.world_of PyOther, Raise (UnboundLocalError "colnames"))) /\
  (In (Str.lower "event-related") auto_methods ->
   ppg_analyze true idle_eventrelated idle_intervalrelated 0%nat 100 "event-related"
     (Samples.world_of PyOther)
   = (Samples.world_of PyOther,
      Raise (UnboundLocalError
               (if isinstance_dict (objects (Samples.world_of PyOther) 0%nat)
                then "duration" else "features")))).
Proof.
  assert (H : objects (Samples.world_of PyOther) 0%nat = PyDict [] \/
              objects (Samples.world_of PyOther) 0%nat = PyOther)
    by (right; reflexivity).
  split; [exact H|].
  exact (unbound_locals true unit idle_eventrelated idle_intervalrelated
           0%nat 100 "event-related" (Samples.world_of PyOther) H).
Defined.

(** ** The scenarios of the specification *)

(** Twenty seconds of recording, auto: interval-related. *)
Example scenario_recording_auto :
  decision true Samples.resting 0%nat 100 "auto"
  = ([CallIntervalRelated 0%nat 100], Return tt).
Proof. reflexivity. Qed.

(** Three epochs of two seconds, auto: event-related. *)
Example scenario_epochs_auto :
  decision true Samples.epochs 0%nat 100 "auto"
  = ([CallEventRelated 0%nat], Return tt).
Proof. reflexivity. Qed.

(** A table with a [Label] column, event-related: the check passes. *)
Example scenario_label_event :
  decision true (PyDataFrame (Samples.epoch "1" 200)) 0%nat 100 "event-related"
  = ([CallEventRelated 0%nat], Return tt).
Proof. reflexivity. Qed.

(** A table without a marker, event-related: the [ValueError]. *)
Example scenario_no_label_event :
  decision true Samples.resting 0%nat 100 "event-related"
  = ([], Raise (ValueError wrong_input)).
Proof. reflexivity. Qed.

(** A table of epochs with string labels, auto: the epochs last two
    seconds each, event-related. *)
Example scenario_label_auto :
  decision true (PyDataFrame (Samples.epoch "1" 200)) 0%nat 100 "auto"
  = ([CallEventRelated 0%nat], Return tt).
Proof. vm_compute. reflexivity. Qed.

(** * Edge behaviour of the dispatcher *)

(** ** The counts, looked up by label *)

Section ValueCountsKeys.

Context {A : Type} (eqb : A -> A -> bool).
Hypothesis eqb_spec : forall x y, eqb x y = true <-> x = y.





(** A label that does not occur is not found. *)
Lemma get_loc_value_counts_absent (x : A) (vs : list A) :
  ~ In x vs -> get_loc eqb x (value_counts eqb vs) = None.
Proof.
  intros Hnot. destruct (get_loc eqb x (value_counts eqb vs)) as [n|] eqn:E;
    [|reflexivity].
  apply (get_loc_In eqb eqb_spec) in E. unfold value_counts in E.
  apply In_sort_desc, (In_tally eqb eqb_spec) in E. tauto.
Qed.

End ValueCountsKeys.

(** ** Sampling rates that are not positive *)

Lemma ge10_quotient_negative (n sr : Z) :
  (0 <= n)%Z -> (sr < 0)%Z -> ge10 (Finite (quotient n sr)) = false.
Proof.
  intros Hn Hsr. unfold ge10, quotient.
  destruct (Qle_bool 10 (inject_Z n / inject_Z sr)) eqn:E; [|reflexivity].
  apply Qle_bool_iff in E. exfalso.
  destruct sr as [|p|p]; try lia.
  unfold Qle, Qdiv, Qmult, Qinv, inject_Z in E. simpl in E. lia.
Qed.

(** ** What the loops and the lookups can raise *)

Lemma for_each_raise_inv {S : Type} (l : list string)
  (body : string -> S -> M S) (e : exn) :
  forall (s : S) (w w' : world),
    for_each l body s w = (w', Raise e) ->
    exists i s0 w0, In i l /\ body i s0 w0 = (w', Raise e).
Proof.
  induction l as [|i l IH]; intros s w w' H; simpl in H.
  - discriminate.
  - unfold bind in H. destruct (body i s w) as [w1 [s1 | e1]] eqn:E.
    + destruct (IH s1 w1 w' H) as [j [s0 [w0 [Hj Hb]]]].
      exists j, s0, w0. split; [now right | exact Hb].
    + injection H as -> ->. exists i, s, w. split; [now left | exact E].
Qed.

Lemma event_colnames_raises (o : pyobj) (w w' : world) (e : exn) :
  event_colnames o w = (w', Raise e) -> forall msg, e <> ValueError msg.
Proof.
  destruct o as [d | df |]; simpl; intros H msg; try discriminate.
  apply for_each_raise_inv in H as [i [s0 [w0 [_ H]]]].
  unfold bind, dict_getitem in H.
  destruct (dict_get d i); simpl in H; [discriminate|].
  injection H as _ <-. discriminate.
Qed.

Lemma auto_dict_duration_raises (d : pydict) (sr : Z) (w w' : world)
  (e : exn) :
  auto_dict_duration d sr w = (w', Raise e) -> forall msg, e <> ValueError msg.
Proof.
  unfold auto_dict_duration. intros H msg.
  apply for_each_raise_inv in H as [i [s0 [w0 [_ H]]]].
  unfold bind, dict_getitem, lift, py_truediv in H.
  destruct (dict_get d i); simpl in H.
  - destruct (sr =? 0)%Z; simpl in H; [|discriminate].
    injection H as _ <-. discriminate.
  - injection H as _ <-. discriminate.
Qed.

Lemma auto_frame_duration_raises (pos : bool) (df : DataFrame) (sr : Z)
  (w w' : world)
  (e : exn) :
  auto_frame_duration pos df sr w = (w', Raise e) -> forall msg, e <> ValueError msg.
Proof.
  unfold auto_frame_duration, bind, lift, getitem_column, py_truediv.
  intros H msg. destruct (column_in "Label" df).
  - destruct (assoc_column "Label" (columns df)) as [c|];
      [|injection H as _ <-; discriminate].
    destruct c as [vs | vs]; simpl in H.
    + destruct pos; [|injection H as _ <-; discriminate].
      destruct (value_counts String.eqb vs) as [|[v n] rest];
        [injection H as _ <-|]; discriminate.
    + destruct (get_loc Z.eqb 0%Z (value_counts Z.eqb vs));
        [|injection H as _ <-]; discriminate.
  - destruct (sr =? 0)%Z; [injection H as _ <-|]; discriminate.
Qed.

(** A table in which no column name contains the marker has no column
    named [Label]. *)
Lemma no_marker_no_label (df : DataFrame) :
  ~ has_label_marker (columns_values df) -> column_in "Label" df = false.
Proof.
  intros H. unfold column_in. apply mem_not_In. intros Hin.
  apply H. exists "Label". split; [exact Hin | reflexivity].
Qed.

Section Edges.

Variable pandas_positional : bool.
Variable Features : Type.
Variable ppg_eventrelated : ref -> heap -> heap * outcome Features.
Variable ppg_intervalrelated : ref -> Z -> heap -> heap * outcome Features.

Local Abbreviation analyze :=
  (ppg_analyze pandas_positional ppg_eventrelated ppg_intervalrelated).
Local Abbreviation frame_duration := (auto_frame_duration pandas_positional).
Local Abbreviation to_event := (call_ppg_eventrelated ppg_eventrelated).
Local Abbreviation to_interval := (call_ppg_intervalrelated ppg_intervalrelated).

(** X1. The method name is lower-cased first (line 72): a name and its
    lower case give the same call, whatever the data. *)
Theorem method_case_insensitive (data : ref) (sr : Z) (method : string)
  (w : world) :
  analyze data sr (Str.lower method) w = analyze data sr method w.
Proof.
  unfold ppg_analyze. cbv zeta. now rewrite lower_idem.
Qed.

(** X3. In the event-related branch the sampling rate is never read:
    two calls that differ in the sampling rate alone are the same call,
    zero and negative rates included. *)
Theorem event_related_ignores_rate (data : ref) (method : string)
  (w : world) :
  In (Str.lower method) event_related_methods ->
  forall sr sr', analyze data sr method w = analyze data sr' method w.
Proof.
  intros Hm sr sr'. now rewrite !analyze_event by exact Hm.
Qed.

(** X5. A value the dispatcher returns is the value a collaborator
    returned: exactly one call was made, on the objects as they were
    when the dispatcher was called, and its result is handed back as it
    is. *)
Theorem result_is_collaborators (data : ref) (sr : Z) (method : string)
  (w w' : world) (f : Features) :
  analyze data sr method w = (w', Return f) ->
  (trace w' = trace w ++ [CallEventRelated data] /\
   ppg_eventrelated data (objects w) = (objects w', Return f)) \/
  (trace w' = trace w ++ [CallIntervalRelated data sr] /\
   ppg_intervalrelated data sr (objects w) = (objects w', Return f)).
Proof.
  intros Hres.
  destruct (analyze_decision pandas_positional Features ppg_eventrelated ppg_intervalrelated
              data sr method w) as [[e [_ H]] | [[_ H] | [_ H]]];
    rewrite H in Hres.
  - discriminate.
  - left. unfold call_ppg_eventrelated in Hres.
    destruct (ppg_eventrelated data (objects w)) as [h r].
    injection Hres as <- ->. split; reflexivity.
  - right. unfold call_ppg_intervalrelated in Hres.
    destruct (ppg_intervalrelated data sr (objects w)) as [h r].
    injection Hres as <- ->. split; reflexivity.
Qed.

(** X6. The auto branch has no sanity check.  A short table in which no
    column name contains the marker, at a positive sampling rate below
    2^50 (where the float quotient and the exact one are on the same
    side of 10, see [quotient_gap]), is refused by the event-related
    branch with the [ValueError], and handed to the event-related
    collaborator by the auto branch. *)
Theorem auto_bypasses_check (data : ref) (sr : Z) (m_event m_auto : string)
  (w : world) (df : DataFrame) :
  objects w data = PyDataFrame df ->
  ~ has_label_marker (columns_values df) ->
  (0 < sr < 2 ^ 50)%Z ->
  (len df < 10 * sr)%Z ->
  In (Str.lower m_event) event_related_methods ->
  Str.lower m_auto = "auto" ->
  analyze data sr m_event w = (w, Raise (ValueError wrong_input)) /\
  analyze data sr m_auto w = to_event data w.
Proof.
  intros Hobj Hno [Hsr _] Hlen He Ha. split.
  - rewrite (analyze_event_checked _ _ _ _ data sr m_event w df);
      [| now rewrite Hobj | now rewrite Hobj | exact He].
    apply label_columns_empty in Hno. now rewrite Hno.
  - rewrite analyze_auto by (rewrite Ha; now left).
    rewrite Hobj. unfold bind, auto_frame_duration.
    rewrite (no_marker_no_label df Hno).
    unfold lift, py_truediv.
    assert (E : (sr =? 0)%Z = false) by (apply Z.eqb_neq; lia). rewrite E.
    unfold route. rewrite (ge10_quotient _ _ Hsr).
    assert (F : (10 * sr <=? len df)%Z = false) by (apply Z.leb_gt; lia).
    now rewrite F.
Qed.

(** X7. With a positive sampling rate below 2^50 and fewer than 2^63
    rows (where the float quotient and the exact one are on the same
    side of 10, see [quotient_gap]), the auto branch on a table
    without a [Label] column, or on a dict (its last member deciding),
    goes to the interval-related collaborator exactly when the table has
    at least ten times the sampling rate of rows. *)
Theorem auto_threshold_in_rows (data : ref) (sr : Z) (method : string)
  (w : world) (df : DataFrame) :
  (objects w data = PyDataFrame df /\ column_in "Label" df = false) \/
  (exists d k, objects w data = PyDict d /\ wf_dict d /\
               last_member d = Some (k, df)) ->
  (0 < sr < 2 ^ 50)%Z ->
  (len df < 2 ^ 63)%Z ->
  Str.lower method = "auto" ->
  analyze data sr method w =
    if (10 * sr <=? len df)%Z
    then to_interval data sr w
    else to_event data w.
Proof.
  intros Hshape [Hsr _] _ Hm.
  assert (Hneq : sr <> 0%Z) by lia.
  rewrite analyze_auto by (rewrite Hm; now left).
  rewrite <- (ge10_quotient (len df) sr Hsr).
  destruct Hshape as [[Hobj Hlabel] | [d [k [Hobj [Hwf Hlast]]]]];
    rewrite Hobj; unfold bind.
  - unfold auto_frame_duration. rewrite Hlabel. unfold lift, py_truediv.
    apply Z.eqb_neq in Hneq. rewrite Hneq. unfold route.
    now destruct (ge10 (Finite (quotient (len df) sr))).
  - rewrite (auto_dict_duration_last d k df sr w Hwf Hlast Hneq).
    unfold local, ret, route.
    now destruct (ge10 (Finite (quotient (len df) sr))).
Qed.

(** X8. A negative sampling rate is not refused: the duration is not
    positive, and the auto branch on a table without a [Label] column or
    on a dict goes to the event-related collaborator, however long the
    data. *)
Theorem auto_negative_rate (data : ref) (sr : Z) (method : string)
  (w : world) (df : DataFrame) :
  (objects w data = PyDataFrame df /\ column_in "Label" df = false) \/
  (exists d k, objects w data = PyDict d /\ wf_dict d /\
               last_member d = Some (k, df)) ->
  (sr < 0)%Z ->
  Str.lower method = "auto" ->
  analyze data sr method w = to_event data w.
Proof.
  intros Hshape Hsr Hm.
  assert (Hneq : sr <> 0%Z) by lia.
  assert (Hlen : (0 <= len df)%Z) by (unfold len; lia).
  pose proof (ge10_quotient_negative (len df) sr Hlen Hsr) as Hge.
  rewrite analyze_auto by (rewrite Hm; now left).
  destruct Hshape as [[Hobj Hlabel] | [d [k [Hobj [Hwf Hlast]]]]];
    rewrite Hobj; unfold bind.
  - unfold auto_frame_duration. rewrite Hlabel. unfold lift, py_truediv.
    apply Z.eqb_neq in Hneq. rewrite Hneq. unfold route. now rewrite Hge.
  - rewrite (auto_dict_duration_last d k df sr w Hwf Hlast Hneq).
    unfold local, ret, route. now rewrite Hge.
Qed.

(** X11. On a pandas with the positional fallback (1 and 2), with a
    [Label] column of strings the quotient of line 109 is numpy's: a
    sampling rate of zero does not raise, the duration is infinite, and
    the call goes to the interval-related collaborator. *)
Theorem auto_labelled_table_zero_rate (data : ref) (method : string)
  (w : world) (df : DataFrame) (vs : list string) :
  pandas_positional = true ->
  objects w data = PyDataFrame df ->
  assoc_column "Label" (columns df) = Some (StrColumn vs) ->
  vs <> [] ->
  Str.lower method = "auto" ->
  analyze data 0 method w = to_interval data 0 w.
Proof.
  intros Hpos Hobj Hcol Hvs Hm. rewrite Hpos.
  pose proof (value_counts_nonempty String.eqb String.eqb_eq vs Hvs) as Hne.
  destruct (value_counts String.eqb vs) as [|[v n] rest] eqn:E; [congruence|].
  destruct (value_counts_head String.eqb String.eqb_eq vs v n rest E)
    as [[x [Hx Hn]] _].
  apply (count_In String.eqb String.eqb_eq) in Hx.
  rewrite analyze_auto by (rewrite Hm; now left).
  rewrite Hobj. unfold auto_frame_duration, column_in, columns_values.
  rewrite (assoc_column_in _ _ _ Hcol).
  unfold bind, lift, getitem_column. rewrite Hcol.
  cbn [value_counts_getitem_0]. rewrite E.
  unfold ret, np_truediv, route.
  destruct n as [|n]; [lia | reflexivity].
Qed.


(** X14. With a [Label] column of integers in which the label 0 does
    not occur, the lookup [value_counts()[0]] fails: the auto branch
    raises [KeyError], whatever the sampling rate, and calls no
    collaborator. *)
Theorem auto_integer_labels_missing_0 (data : ref) (method : string)
  (w : world) (df : DataFrame) (vs : list Z) :
  objects w data = PyDataFrame df ->
  assoc_column "Label" (columns df) = Some (IntColumn vs) ->
  ~ In 0%Z vs ->
  Str.lower method = "auto" ->
  forall sr, analyze data sr method w = (w, Raise (KeyError "0")).
Proof.
  intros Hobj Hcol Hnot Hm sr.
  rewrite analyze_auto by (rewrite Hm; now left).
  rewrite Hobj. unfold auto_frame_duration, column_in, columns_values.
  rewrite (assoc_column_in _ _ _ Hcol).
  unfold bind, lift, getitem_column. rewrite Hcol.
  cbn [value_counts_getitem_0].
  now rewrite (get_loc_value_counts_absent Z.eqb Z.eqb_eq 0%Z vs Hnot).
Qed.

(** X15. On a pandas with the positional fallback (1 and 2), with a
    [Label] column of strings and no row, the counts are empty and
    position 0 does not exist: the auto branch raises [IndexError],
    whatever the sampling rate, and calls no collaborator. *)
Theorem auto_labels_no_row (data : ref) (method : string) (w : world)
  (df : DataFrame) :
  pandas_positional = true ->
  objects w data = PyDataFrame df ->
  assoc_column "Label" (columns df) = Some (StrColumn []) ->
  Str.lower method = "auto" ->
  forall sr, analyze data sr method w = (w, Raise IndexError).
Proof.
  intros Hpos Hobj Hcol Hm sr. rewrite Hpos.
  rewrite analyze_auto by (rewrite Hm; now left).
  rewrite Hobj. unfold auto_frame_duration, column_in, columns_values.
  rewrite (assoc_column_in _ _ _ Hcol).
  unfold bind, lift, getitem_column. now rewrite Hcol.
Qed.

(** X16. On a pandas without the positional fallback (3), a [Label]
    column of strings never has the key 0: the auto branch on a table
    with such a column raises [KeyError], whatever the labels and the
    sampling rate, and calls no collaborator. *)
Theorem auto_string_labels_label_lookup (data : ref) (method : string)
  (w : world) (df : DataFrame) (vs : list string) :
  pandas_positional = false ->
  objects w data = PyDataFrame df ->
  assoc_column "Label" (columns df) = Some (StrColumn vs) ->
  Str.lower method = "auto" ->
  forall sr, analyze data sr method w = (w, Raise (KeyError "0")).
Proof.
  intros Hpos Hobj Hcol Hm sr. rewrite Hpos.
  rewrite analyze_auto by (rewrite Hm; now left).
  rewrite Hobj. unfold auto_frame_duration, column_in, columns_values.
  rewrite (assoc_column_in _ _ _ Hcol).
  unfold bind, lift, getitem_column. now rewrite Hcol.
Qed.

End Edges.

(** X4. The [ValueError] belongs to the event-related branch: when the
    dispatcher itself raises one, the method is of the event-related
    group and the message is that of lines 84-87.  The interval-related
    and auto branches never raise it. *)
Theorem value_error_only_event_related (pos : bool) (o : pyobj) (data : ref) (sr : Z)
  (method msg : string) :
  decision pos o data sr method = ([], Raise (ValueError msg)) ->
  In (Str.lower method) event_related_methods /\ msg = wrong_input.
Proof.
  unfold decision. intros H.
  destruct (Str.mem (Str.lower method) event_related_methods) eqn:He;
    [|destruct (Str.mem (Str.lower method) interval_related_methods) eqn:Hi;
      [|destruct (Str.mem (Str.lower method) auto_methods) eqn:Ha]].
  - apply mem_In in He. split; [exact He|].
    rewrite analyze_event in H by exact He.
    cbv [bind deref] in H. cbn [objects] in H.
    destruct (event_colnames o _) as [w1 [[c|] | e]] eqn:E;
      cbv [local ret raise] in H.
    + destruct (List.length (label_columns c) =? 0)%nat.
      * now injection H as _ <-.
      * discriminate.
    + discriminate.
    + injection H as _ ->. now destruct (event_colnames_raises _ _ _ _ E msg).
  - apply mem_In in Hi. rewrite analyze_interval in H by exact Hi.
    discriminate.
  - apply mem_In in Ha. rewrite analyze_auto in H by exact Ha.
    cbn [objects] in H. exfalso.
    destruct o as [d | df |]; [| |discriminate]; unfold bind in H.
    + destruct (auto_dict_duration d sr _) as [w1 [[x|] | e]] eqn:E;
        cbv [local ret raise route] in H.
      * destruct (ge10 x); discriminate.
      * discriminate.
      * injection H as _ ->.
        now destruct (auto_dict_duration_raises _ _ _ _ _ E msg).
    + destruct (auto_frame_duration pos df sr _) as [w1 [x | e]] eqn:E;
        cbv [route] in H.
      * destruct (ge10 x); discriminate.
      * injection H as _ ->.
        now destruct (auto_frame_duration_raises _ _ _ _ _ _ E msg).
  - rewrite analyze_unrecognized in H by assumption. discriminate.
Qed.

(** ** The edge behaviour on the sample inputs *)

Ltac no_marker :=
  let c := fresh "c" in
  let Hin := fresh "Hin" in
  let Hc := fresh "Hc" in
  intros [c [Hin Hc]]; simpl in Hin;
  repeat (destruct Hin as [<- | Hin]; [discriminate|]); contradiction.

Lemma event_related_without_marker_witness :
  wf_obj (objects (Samples.world_of Samples.resting) 0%nat) /\
  checked_frame (objects (Samples.world_of Samples.resting) 0%nat)
    = Some (Samples.recording 2000) /\
  ~ has_label_marker
      (all_columns (objects (Samples.world_of Samples.resting) 0%nat)) /\
  In (Str.lower "Event") event_related_methods /\
  ppg_analyze true idle_eventrelated idle_intervalrelated 0%nat 100 "Event"
    (Samples.world_of Samples.resting)
  = (Samples.world_of Samples.resting, Raise (ValueError wrong_input)).
Proof.
  assert (H1 : wf_obj (objects (Samples.world_of Samples.resting) 0%nat))
    by exact I.
  assert (H2 : checked_frame (objects (Samples.world_of Samples.resting) 0%nat)
               = Some (Samples.recording 2000)) by reflexivity.
  assert (H3 : ~ has_label_marker
                 (all_columns (objects (Samples.world_of Samples.resting)
                                 0%nat))) by no_marker.
  assert (H4 : In (Str.lower "Event") event_related_methods)
    by (simpl; auto).
  split; [exact H1|]. split; [exact H2|]. split; [exact H3|].
  split; [exact H4|].
  exact (event_related_without_marker true unit idle_eventrelated
           idle_intervalrelated 0%nat 100 "Event"
           (Samples.world_of Samples.resting) (Samples.recording 2000)
           H1 H2 H3 H4).
Defined.

Lemma event_related_ignores_rate_witness :
  In (Str.lower "Epoch") event_related_methods /\
  ppg_analyze true idle_eventrelated idle_intervalrelated 0%nat 100 "Epoch"
    (Samples.world_of Samples.epochs)
  = ppg_analyze true idle_eventrelated idle_intervalrelated 0%nat 0 "Epoch"
      (Samples.world_of Samples.epochs).
Proof.
  assert (H : In (Str.lower "Epoch") event_related_methods) by (simpl; auto).
  split; [exact H|].
  exact (event_related_ignores_rate true unit idle_eventrelated
           idle_intervalrelated 0%nat "Epoch"
           (Samples.world_of Samples.epochs) H 100%Z 0%Z).
Defined.

Lemma value_error_only_event_related_witness :
  decision true Samples.resting 0%nat 100 "event-related"
    = ([], Raise (ValueError wrong_input)) /\
  In (Str.lower "event-related") event_related_methods /\
  wrong_input = wrong_input.
Proof.
  assert (H : decision true Samples.resting 0%nat 100 "event-related"
              = ([], Raise (ValueError wrong_input))) by reflexivity.
  split; [exact H|].
  exact (value_error_only_event_related true Samples.resting 0%nat 100
           "event-related" wrong_input H).
Defined.

Lemma result_is_collaborators_witness :
  ppg_analyze true idle_eventrelated idle_intervalrelated 0%nat 100 "auto"
    (Samples.world_of Samples.resting)
  = (mkWorld (fun _ => Samples.resting) [CallIntervalRelated 0%nat 100],
     Return tt) /\
  ((trace (mkWorld (fun _ => Samples.resting) [CallIntervalRelated 0%nat 100])
    = trace (Samples.world_of Samples.resting) ++ [CallEventRelated 0%nat] /\
    idle_eventrelated 0%nat (objects (Samples.world_of Samples.resting))
    = (objects (mkWorld (fun _ => Samples.resting)
                  [CallIntervalRelated 0%nat 100]), Return tt)) \/
   (trace (mkWorld (fun _ => Samples.resting) [CallIntervalRelated 0%nat 100])
    = trace (Samples.world_of Samples.resting)
      ++ [CallIntervalRelated 0%nat 100] /\
    idle_intervalrelated 0%nat 100
      (objects (Samples.world_of Samples.resting))
    = (objects (mkWorld (fun _ => Samples.resting)
                  [CallIntervalRelated 0%nat 100]), Return tt))).
Proof.
  assert (H : ppg_analyze true idle_eventrelated idle_intervalrelated 0%nat 100
                "auto" (Samples.world_of Samples.resting)
              = (mkWorld (fun _ => Samples.resting)
                   [CallIntervalRelated 0%nat 100], Return tt))
    by (vm_compute; reflexivity).
  split; [exact H|].
  exact (result_is_collaborators true unit idle_eventrelated idle_intervalrelated
           0%nat 100 "auto" (Samples.world_of Samples.resting) _ tt H).
Defined.

Lemma auto_bypasses_check_witness :
  objects (Samples.world_of (PyDataFrame (Samples.recording 200))) 0%nat
    = PyDataFrame (Samples.recording 200) /\
  ~ has_label_marker (columns_values (Samples.recording 200)) /\
  (0 < 100 < 2 ^ 50)%Z /\
  (len (Samples.recording 200) < 10 * 100)%Z /\
  In (Str.lower "event-related") event_related_methods /\
  Str.lower "auto" = "auto" /\
  ppg_analyze true idle_eventrelated idle_intervalrelated 0%nat 100 "event-related"
    (Samples.world_of (PyDataFrame (Samples.recording 200)))
  = (Samples.world_of (PyDataFrame (Samples.recording 200)),
     Raise (ValueError wrong_input)) /\
  ppg_analyze true idle_eventrelated idle_intervalrelated 0%nat 100 "auto"
    (Samples.world_of (PyDataFrame (Samples.recording 200)))
  = call_ppg_eventrelated idle_eventrelated 0%nat
      (Samples.world_of (PyDataFrame (Samples.recording 200))).
Proof.
  assert (H1 : objects (Samples.world_of (PyDataFrame (Samples.recording 200)))
                 0%nat = PyDataFrame (Samples.recording 200)) by reflexivity.
  assert (H2 : ~ has_label_marker (columns_values (Samples.recording 200)))
    by no_marker.
  assert (H3 : (0 < 100 < 2 ^ 50)%Z) by (split; reflexivity).
  assert (H4 : (len (Samples.recording 200) < 10 * 100)%Z)
    by (vm_compute; reflexivity).
  assert (H5 : In (Str.lower "event-related") event_related_methods)
    by (simpl; auto).
  assert (H6 : Str.lower "auto" = "auto") by reflexivity.
  split; [exact H1|]. split; [exact H2|]. split; [exact H3|].
  split; [exact H4|]. split; [exact H5|]. split; [exact H6|].
  exact (auto_bypasses_check true unit idle_eventrelated idle_intervalrelated
           0%nat 100 "event-related" "auto"
           (Samples.world_of (PyDataFrame (Samples.recording 200)))
           (Samples.recording 200) H1 H2 H3 H4 H5 H6).
Defined.

Lemma auto_threshold_in_rows_witness :
  ((objects (Samples.world_of Samples.resting) 0%nat
      = PyDataFrame (Samples.recording 2000) /\
    column_in "Label" (Samples.recording 2000) = false) \/
   (exists d k,
      objects (Samples.world_of Samples.resting) 0%nat = PyDict d /\
      wf_dict d /\ last_member d = Some (k, Samples.recording 2000))) /\
  (0 < 100 < 2 ^ 50)%Z /\
  (len (Samples.recording 2000) < 2 ^ 63)%Z /\
  Str.lower "auto" = "auto" /\
  ppg_analyze true idle_eventrelated idle_intervalrelated 0%nat 100 "auto"
    (Samples.world_of Samples.resting)
  = if (10 * 100 <=? len (Samples.recording 2000))%Z
    then call_ppg_intervalrelated idle_intervalrelated 0%nat 100
           (Samples.world_of Samples.resting)
    else call_ppg_eventrelated idle_eventrelated 0%nat
           (Samples.world_of Samples.resting).
Proof.
  assert (H1 : (objects (Samples.world_of Samples.resting) 0%nat
                  = PyDataFrame (Samples.recording 2000) /\
                column_in "Label" (Samples.recording 2000) = false) \/
               (exists d k,
                  objects (Samples.world_of Samples.resting) 0%nat = PyDict d /\
                  wf_dict d /\
                  last_member d = Some (k, Samples.recording 2000)))
    by (left; split; reflexivity).
  assert (H2 : (0 < 100 < 2 ^ 50)%Z) by (split; reflexivity).
  assert (Hl : (len (Samples.recording 2000) < 2 ^ 63)%Z) by reflexivity.
  assert (H3 : Str.lower "auto" = "auto") by reflexivity.
  split; [exact H1|]. split; [exact H2|]. split; [exact Hl|].
  split; [exact H3|].
  exact (auto_threshold_in_rows true unit idle_eventrelated idle_intervalrelated
           0%nat 100 "auto" (Samples.world_of Samples.resting)
           (Samples.recording 2000) H1 H2 Hl H3).
Defined.

Lemma auto_negative_rate_witness :
  ((objects (Samples.world_of Samples.label_last) 0%nat
      = PyDataFrame (Samples.epoch "2" 1500) /\
    column_in "Label" (Samples.epoch "2" 1500) = false) \/
   (exists d k,
      objects (Samples.world_of Samples.label_last) 0%nat = PyDict d /\
      wf_dict d /\ last_member d = Some (k, Samples.epoch "2" 1500))) /\
  (-100 < 0)%Z /\
  Str.lower "auto" = "auto" /\
  ppg_analyze true idle_eventrelated idle_intervalrelated 0%nat (-100) "auto"
    (Samples.world_of Samples.label_last)
  = call_ppg_eventrelated idle_eventrelated 0%nat
      (Samples.world_of Samples.label_last).
Proof.
  assert (H1 : (objects (Samples.world_of Samples.label_last) 0%nat
                  = PyDataFrame (Samples.epoch "2" 1500) /\
                column_in "Label" (Samples.epoch "2" 1500) = false) \/
               (exists d k,
                  objects (Samples.world_of Samples.label_last) 0%nat
                    = PyDict d /\
                  wf_dict d /\
                  last_member d = Some (k, Samples.epoch "2" 1500))).
  { right. exists [("1", Samples.recording 200); ("2", Samples.epoch "2" 1500)].
    exists "2". split; [reflexivity|]. split; [distinct_keys | reflexivity]. }
  assert (H2 : (-100 < 0)%Z) by lia.
  assert (H3 : Str.lower "auto" = "auto") by reflexivity.
  split; [exact H1|]. split; [exact H2|]. split; [exact H3|].
  exact (auto_negative_rate true unit idle_eventrelated idle_intervalrelated
           0%nat (-100) "auto" (Samples.world_of Samples.label_last)
           (Samples.epoch "2" 1500) H1 H2 H3).
Defined.

Lemma auto_table_zero_rate_witness :
  objects (Samples.world_of Samples.resting) 0%nat
    = PyDataFrame (Samples.recording 2000) /\
  column_in "Label" (Samples.recording 2000) = false /\
  Str.lower "auto" = "auto" /\
  ppg_analyze true idle_eventrelated idle_intervalrelated 0%nat 0 "auto"
    (Samples.world_of Samples.resting)
  = (Samples.world_of Samples.resting, Raise ZeroDivisionError).
Proof.
  assert (H1 : objects (Samples.world_of Samples.resting) 0%nat
               = PyDataFrame (Samples.recording 2000)) by reflexivity.
  assert (H2 : column_in "Label" (Samples.recording 2000) = false)
    by reflexivity.
  assert (H3 : Str.lower "auto" = "auto") by reflexivity.
  split; [exact H1|]. split; [exact H2|]. split; [exact H3|].
  exact (auto_table_zero_rate true unit idle_eventrelated idle_intervalrelated
           0%nat "auto" (Samples.world_of Samples.resting)
           (Samples.recording 2000) H1 H2 H3).
Defined.

Lemma auto_dict_zero_rate_witness :
  objects (Samples.world_of Samples.epochs) 0%nat
    = PyDict (("1", Samples.epoch "1" 200)
              :: [("2", Samples.epoch "2" 200); ("3", Samples.epoch "3" 200)]) /\
  Str.lower "auto" = "auto" /\
  ppg_analyze true idle_eventrelated idle_intervalrelated 0%nat 0 "auto"
    (Samples.world_of Samples.epochs)
  = (Samples.world_of Samples.epochs, Raise ZeroDivisionError).
Proof.
  assert (H1 : objects (Samples.world_of Samples.epochs) 0%nat
               = PyDict (("1", Samples.epoch "1" 200)
                         :: [("2", Samples.epoch "2" 200);
                             ("3", Samples.epoch "3" 200)])) by reflexivity.
  assert (H2 : Str.lower "auto" = "auto") by reflexivity.
  split; [exact H1|]. split; [exact H2|].
  exact (auto_dict_zero_rate true unit idle_eventrelated idle_intervalrelated
           0%nat "auto" (Samples.world_of Samples.epochs)
           "1" (Samples.epoch "1" 200) _ H1 H2).
Defined.

Lemma auto_labelled_table_zero_rate_witness :
  objects (Samples.world_of (PyDataFrame (Samples.epoch "1" 200))) 0%nat
    = PyDataFrame (Samples.epoch "1" 200) /\
  assoc_column "Label" (columns (Samples.epoch "1" 200))
    = Some (StrColumn (repeat "1" 200)) /\
  repeat "1" 200 <> [] /\
  Str.lower "auto" = "auto" /\
  ppg_analyze true idle_eventrelated idle_intervalrelated 0%nat 0 "auto"
    (Samples.world_of (PyDataFrame (Samples.epoch "1" 200)))
  = call_ppg_intervalrelated idle_intervalrelated 0%nat 0
      (Samples.world_of (PyDataFrame (Samples.epoch "1" 200))).
Proof.
  assert (H1 : objects (Samples.world_of (PyDataFrame (Samples.epoch "1" 200)))
                 0%nat = PyDataFrame (Samples.epoch "1" 200)) by reflexivity.
  assert (H2 : assoc_column "Label" (columns (Samples.epoch "1" 200))
               = Some (StrColumn (repeat "1" 200))) by reflexivity.
  assert (H3 : repeat "1" 200 <> []) by discriminate.
  assert (H4 : Str.lower "auto" = "auto") by reflexivity.
  split; [exact H1|]. split; [exact H2|]. split; [exact H3|].
  split; [exact H4|].
  exact (auto_labelled_table_zero_rate true unit idle_eventrelated
           idle_intervalrelated 0%nat "auto"
           (Samples.world_of (PyDataFrame (Samples.epoch "1" 200)))
           (Samples.epoch "1" 200) (repeat "1" 200) eq_refl H1 H2 H3 H4).
Defined.

Lemma auto_table_string_labels_witness :
  objects (Samples.world_of (PyDataFrame (Samples.epoch "1" 200))) 0%nat
    = PyDataFrame (Samples.epoch "1" 200) /\
  assoc_column "Label" (columns (Samples.epoch "1" 200))
    = Some (StrColumn (repeat "1" 200)) /\
  repeat "1" 200 <> [] /\
  100%Z <> 0%Z /\
  (Z.abs 100 < 2 ^ 49)%Z /\
  Str.lower "auto" = "auto" /\
  exists n,
    most_frequent_count String.eqb (repeat "1" 200) n /\
    auto_frame_duration true (Samples.epoch "1" 200) 100
      (Samples.world_of (PyDataFrame (Samples.epoch "1" 200)))
    = (Samples.world_of (PyDataFrame (Samples.epoch "1" 200)),
       Return (Finite (quotient (Z.of_nat n) 100))) /\
    ppg_analyze true idle_eventrelated idle_intervalrelated 0%nat 100 "auto"
      (Samples.world_of (PyDataFrame (Samples.epoch "1" 200)))
    = if Qle_bool 10 (quotient (Z.of_nat n) 100)
      then call_ppg_intervalrelated idle_intervalrelated 0%nat 100
             (Samples.world_of (PyDataFrame (Samples.epoch "1" 200)))
      else call_ppg_eventrelated idle_eventrelated 0%nat
             (Samples.world_of (PyDataFrame (Samples.epoch "1" 200))).
Proof.
  assert (H1 : objects (Samples.world_of (PyDataFrame (Samples.epoch "1" 200)))
                 0%nat = PyDataFrame (Samples.epoch "1" 200)) by reflexivity.
  assert (H2 : assoc_column "Label" (columns (Samples.epoch "1" 200))
               = Some (StrColumn (repeat "1" 200))) by reflexivity.
  assert (H3 : repeat "1" 200 <> []) by discriminate.
  assert (H4 : 100%Z <> 0%Z) by lia.
  assert (Hb : (Z.abs 100 < 2 ^ 49)%Z) by reflexivity.
  assert (H5 : Str.lower "auto" = "auto") by reflexivity.
  split; [exact H1|]. split; [exact H2|]. split; [exact H3|].
  split; [exact H4|]. split; [exact Hb|]. split; [exact H5|].
  exact (auto_table_string_labels true unit idle_eventrelated idle_intervalrelated
           0%nat 100 "auto"
           (Samples.world_of (PyDataFrame (Samples.epoch "1" 200)))
           (Samples.epoch "1" 200) (repeat "1" 200) eq_refl H1 H2 H3 H4 Hb
           H5).
Defined.


Lemma auto_integer_labels_missing_0_witness :
  objects (Samples.world_of (PyDataFrame Samples.labels_from_1)) 0%nat
    = PyDataFrame Samples.labels_from_1 /\
  assoc_column "Label" (columns Samples.labels_from_1)
    = Some (IntColumn [1; 1; 2]%Z) /\
  ~ In 0%Z [1; 1; 2]%Z /\
  Str.lower "auto" = "auto" /\
  forall sr,
    ppg_analyze true idle_eventrelated idle_intervalrelated 0%nat sr "auto"
      (Samples.world_of (PyDataFrame Samples.labels_from_1))
    = (Samples.world_of (PyDataFrame Samples.labels_from_1),
       Raise (KeyError "0")).
Proof.
  assert (H1 : objects (Samples.world_of (PyDataFrame Samples.labels_from_1))
                 0%nat = PyDataFrame Samples.labels_from_1) by reflexivity.
  assert (H2 : assoc_column "Label" (columns Samples.labels_from_1)
               = Some (IntColumn [1; 1; 2]%Z)) by reflexivity.
  assert (H3 : ~ In 0%Z [1; 1; 2]%Z) by (simpl; lia).
  assert (H4 : Str.lower "auto" = "auto") by reflexivity.
  split; [exact H1|]. split; [exact H2|]. split; [exact H3|].
  split; [exact H4|].
  exact (auto_integer_labels_missing_0 true unit idle_eventrelated
           idle_intervalrelated 0%nat "auto"
           (Samples.world_of (PyDataFrame Samples.labels_from_1))
           Samples.labels_from_1 [1; 1; 2]%Z H1 H2 H3 H4).
Defined.

Lemma auto_labels_no_row_witness :
  objects (Samples.world_of (PyDataFrame Samples.no_row)) 0%nat
    = PyDataFrame Samples.no_row /\
  assoc_column "Label" (columns Samples.no_row) = Some (StrColumn []) /\
  Str.lower "auto" = "auto" /\
  forall sr,
    ppg_analyze true idle_eventrelated idle_intervalrelated 0%nat sr "auto"
      (Samples.world_of (PyDataFrame Samples.no_row))
    = (Samples.world_of (PyDataFrame Samples.no_row), Raise IndexError).
Proof.
  assert (H1 : objects (Samples.world_of (PyDataFrame Samples.no_row)) 0%nat
               = PyDataFrame Samples.no_row) by reflexivity.
  assert (H2 : assoc_column "Label" (columns Samples.no_row)
               = Some (StrColumn [])) by reflexivity.
  assert (H3 : Str.lower "auto" = "auto") by reflexivity.
  split; [exact H1|]. split; [exact H2|]. split; [exact H3|].
  exact (auto_labels_no_row true unit idle_eventrelated idle_intervalrelated
           0%nat "auto" (Samples.world_of (PyDataFrame Samples.no_row))
           Samples.no_row eq_refl H1 H2 H3).
Defined.

Lemma auto_string_labels_label_lookup_witness :
  false = false /\
  objects (Samples.world_of (PyDataFrame (Samples.epoch "1" 200))) 0%nat
    = PyDataFrame (Samples.epoch "1" 200) /\
  assoc_column "Label" (columns (Samples.epoch "1" 200))
    = Some (StrColumn (repeat "1" 200)) /\
  Str.lower "auto" = "auto" /\
  forall sr,
    ppg_analyze false idle_eventrelated idle_intervalrelated 0%nat sr "auto"
      (Samples.world_of (PyDataFrame (Samples.epoch "1" 200)))
    = (Samples.world_of (PyDataFrame (Samples.epoch "1" 200)),
       Raise (KeyError "0")).
Proof.
  assert (H0 : false = false) by reflexivity.
  assert (H1 : objects (Samples.world_of (PyDataFrame (Samples.epoch "1" 200)))
                 0%nat = PyDataFrame (Samples.epoch "1" 200)) by reflexivity.
  assert (H2 : assoc_column "Label" (columns (Samples.epoch "1" 200))
               = Some (StrColumn (repeat "1" 200))) by reflexivity.
  assert (H3 : Str.lower "auto" = "auto") by reflexivity.
  split; [exact H0|]. split; [exact H1|]. split; [exact H2|].
  split; [exact H3|].
  exact (auto_string_labels_label_lookup false unit idle_eventrelated
           idle_intervalrelated 0%nat "auto"
           (Samples.world_of (PyDataFrame (Samples.epoch "1" 200)))
           (Samples.epoch "1" 200) (repeat "1" 200) H0 H1 H2 H3).
Defined.
